(** * LITS -- the session/profile store of [lib/auth-context.tsx]

    A shallow embedding of the authentication provider of the Labour Injury
    Tracking System: the React state held by [AuthProvider] (user, session,
    departments and three flags), the operations it exports ([login],
    [signup], [logout], [refreshUser], [completeEmployeeProfile],
    [fetchUserProfile], [loadDepartments]), the mount effect
    [initializeAuth] and the [onAuthStateChange] handler; and of the screens
    that call it: the routing rule of the root layout, the logout buttons,
    pull-to-refresh, the complete-profile form and the field checks of the
    login, sign-up and reset-password forms.

    The Supabase client is an external collaborator. It is modelled by a small
    reference backend (accounts, the persisted session, two tables) together
    with a fault environment that may make any request fail, since every
    operation of the provider has an explicit path for a failing request.
    Strings are byte strings: lengths, lower-casing and white space are those
    of ASCII text. *)

From Stdlib Require Import String Ascii List Bool Arith Lia DecimalString.
Import ListNotations.
Local Open Scope string_scope.
Local Open Scope list_scope.
Local Open Scope nat_scope.

(* ------------------------------------------------------------------------- *)
(** ** JavaScript string helpers *)

Module Js.

(** [c] is one of the one-byte white space characters removed by
    [String.prototype.trim]: TAB, LF, VT, FF, CR and SPACE. *)
Definition is_space (c : ascii) : bool :=
  let n := nat_of_ascii c in
  ((9 <=? n) && (n <=? 13)) || (n =? 32).

(** [toLowerCase] on one byte: 'A'..'Z' are moved to 'a'..'z'. *)
Definition lower (c : ascii) : ascii :=
  let n := nat_of_ascii c in
  if (65 <=? n) && (n <=? 90) then ascii_of_nat (n + 32) else c.

Fixpoint toLowerCase (s : string) : string :=
  match s with
  | EmptyString => EmptyString
  | String c s' => String (lower c) (toLowerCase s')
  end.

Fixpoint trimStart (s : string) : string :=
  match s with
  | EmptyString => EmptyString
  | String c s' => if is_space c then trimStart s' else s
  end.

(** Drops trailing white space: a character is kept when it is not a space
    or when something is kept after it. *)
Fixpoint trimEnd (s : string) : string :=
  match s with
  | EmptyString => EmptyString
  | String c s' =>
      match trimEnd s' with
      | EmptyString => if is_space c then EmptyString else String c EmptyString
      | rest => String c rest
      end
  end.

Definition trim (s : string) : string := trimEnd (trimStart s).

(** [x || null] on an optional string argument: [undefined] and the empty
    string are falsy. *)
Definition or_null (x : option string) : option string :=
  match x with
  | Some s => if (s =? "")%string then None else Some s
  | None => None
  end.

(** [x || d] on an optional string argument. *)
Definition or_default (x : option string) (d : string) : string :=
  match or_null x with
  | Some s => s
  | None => d
  end.

End Js.

(* ------------------------------------------------------------------------- *)
(** ** Data model *)

(** Error objects: what a reply carries in its [error] field and what a
    rejected promise throws. Only [code] and [message] are ever read. *)
Module ApiError.
Record t := { code : string; message : string }.
End ApiError.

(** [User] of the auth client, reduced to the fields that identify it. *)
Module User.
Record t := { id : string; email : string }.
End User.

(** [Session]: the credential bundle. [user] is not optional in the client's
    type, so [currentSession?.user] is present exactly when the session is. *)
Module Session.
Record t := {
  access_token : string;
  refresh_token : string;
  expires_at : nat;
  user : User.t
}.
End Session.

Module Department.
Record t := { id : string; name : string }.
End Department.

(** [UserProfile]: a row of the [employees] table as the provider stores it.
    [email] is optional because [completeEmployeeProfile] writes
    [email || null]. *)
Module UserProfile.
Record t := {
  id : string;
  full_name : string;
  employee_number : string;
  position : string;
  department_id : option string;
  department_name : option string;
  is_active : bool;
  created_at : option string;
  user_id : string;
  phone_number : option string;
  company_name : option string;
  email : option string
}.
End UserProfile.

(** [currentSession?.user] *)
Definition session_user (s : option Session.t) : option User.t :=
  match s with
  | Some x => Some (Session.user x)
  | None => None
  end.

(* ------------------------------------------------------------------------- *)
(** ** The backend collaborator *)

(** The hosted service behind [supabase.auth] and [supabase.from(...)]: the
    accounts that can sign in, the session the client persists, and the two
    tables the provider reads and writes. Constraints of the database (row
    level security, uniqueness) are not enforced by this data model; a request
    they would refuse is a request the fault environment [Net] rejects. *)
Module Supabase.

(** An account and the credential bundle the auth server issues for it. *)
Record Account := {
  login_email : string;
  login_password : string;
  grant : Session.t
}.

Record Backend := {
  accounts : list Account;
  auth_session : option Session.t;
  departments : list Department.t;
  employees : list UserProfile.t;
  next_uuid : nat;   (* state of gen_random_uuid() *)
  now : string       (* reading of now() *)
}.

(** The requests the provider issues, one constructor per call site shape. *)
Inductive Request :=
| SignInWithPassword      (* auth.signInWithPassword *)
| SignOut                 (* auth.signOut *)
| GetSession              (* auth.getSession *)
| SelectDepartments       (* from('departments').select('*').order('name') *)
| SelectDepartmentId      (* from('departments').select('id').eq('name', _).single() *)
| SelectActiveEmployee    (* from('employees')...eq('user_id', _).eq('is_active', true).single() *)
| SelectEmployee          (* from('employees')...eq('user_id', _).single() *)
| InsertEmployee.         (* from('employees').insert(_) *)

(** The fault environment: for each request, whether the reply carries an
    [error] ([rejects]), and whether the awaited promise is rejected, which
    the caller sees as an exception ([raises]). [None] is a healthy request.
    The reply of [auth.getSession] is [{data: {session}, error}] like the
    others: with an [error] its [data.session] is [null]. *)
Record Net := {
  rejects : Request -> option ApiError.t;
  raises : Request -> option ApiError.t
}.

Definition healthy : Net :=
  {| rejects := fun _ => None; raises := fun _ => None |}.

(** How a request ended, as recorded in the trace of an operation. *)
Inductive Answer :=
| Served
| Refused (e : ApiError.t)
| Raised (e : ApiError.t).

Definition Exchange : Type := Request * Answer.

Definition PGRST116 : ApiError.t :=
  {| ApiError.code := "PGRST116";
     ApiError.message := "JSON object requested, multiple (or no) rows returned" |}.

Definition invalid_credentials : ApiError.t :=
  {| ApiError.code := "invalid_credentials";
     ApiError.message := "Invalid login credentials" |}.

(** [.single()]: exactly one row, or the error PGRST116. *)
Definition single {A : Type} (rows : list A) : A + ApiError.t :=
  match rows with
  | [r] => inl r
  | _ => inr PGRST116
  end.

(** [.order('name')] *)
Fixpoint insert_by_name (d : Department.t) (l : list Department.t) : list Department.t :=
  match l with
  | [] => [d]
  | x :: l' =>
      if (Department.name d <=? Department.name x)%string
      then d :: l
      else x :: insert_by_name d l'
  end.

Definition order_by_name (l : list Department.t) : list Department.t :=
  fold_right insert_by_name [] l.

Definition gen_random_uuid (n : nat) : string :=
  "uuid-" ++ NilEmpty.string_of_uint (Nat.to_uint n).

(** *** Replies of a healthy backend *)

Record SignInData := {
  data_session : option Session.t;
  data_user : option User.t;
  signin_error : option ApiError.t
}.

Definition credentials_match (email password : string) (a : Account) : bool :=
  ((login_email a =? email) && (login_password a =? password))%string.

Definition serve_signInWithPassword (email password : string) (b : Backend)
  : SignInData * Backend :=
  match find (credentials_match email password) (accounts b) with
  | Some a =>
      ({| data_session := Some (grant a);
          data_user := Some (Session.user (grant a));
          signin_error := None |},
       {| accounts := accounts b; auth_session := Some (grant a);
          departments := departments b; employees := employees b;
          next_uuid := next_uuid b; now := now b |})
  | None =>
      ({| data_session := None; data_user := None;
          signin_error := Some invalid_credentials |}, b)
  end.

Definition serve_signOut (b : Backend) : Backend :=
  {| accounts := accounts b; auth_session := None;
     departments := departments b; employees := employees b;
     next_uuid := next_uuid b; now := now b |}.

Definition serve_selectDepartments (b : Backend) : list Department.t :=
  order_by_name (departments b).

Definition serve_selectDepartmentId (name : string) (b : Backend)
  : string + ApiError.t :=
  single (map Department.id
            (filter (fun d => (Department.name d =? name)%string) (departments b))).

(** The rows matched by [.eq('user_id', userId)]. *)
Definition profiles_of (userId : string) (b : Backend) : list UserProfile.t :=
  filter (fun p => (UserProfile.user_id p =? userId)%string) (employees b).

(** The rows matched when [.eq('is_active', true)] is added. *)
Definition active_profiles_of (userId : string) (b : Backend) : list UserProfile.t :=
  filter (fun p => Bool.eqb (UserProfile.is_active p) true) (profiles_of userId b).

Definition serve_selectActiveEmployee (userId : string) (b : Backend)
  : UserProfile.t + ApiError.t :=
  single (active_profiles_of userId b).

Definition serve_selectEmployee (userId : string) (b : Backend)
  : UserProfile.t + ApiError.t :=
  single (profiles_of userId b).

(** The columns an insert supplies; [id] and [created_at] take their
    defaults. *)
Record EmployeeInsert := {
  ins_user_id : string;
  ins_full_name : string;
  ins_employee_number : string;
  ins_department_id : string;
  ins_department_name : string;
  ins_phone_number : option string;
  ins_company_name : option string;
  ins_email : option string;
  ins_position : string;
  ins_is_active : bool
}.

Definition new_row (v : EmployeeInsert) (b : Backend) : UserProfile.t :=
  {| UserProfile.id := gen_random_uuid (next_uuid b);
     UserProfile.full_name := ins_full_name v;
     UserProfile.employee_number := ins_employee_number v;
     UserProfile.position := ins_position v;
     UserProfile.department_id := Some (ins_department_id v);
     UserProfile.department_name := Some (ins_department_name v);
     UserProfile.is_active := ins_is_active v;
     UserProfile.created_at := Some (now b);
     UserProfile.user_id := ins_user_id v;
     UserProfile.phone_number := ins_phone_number v;
     UserProfile.company_name := ins_company_name v;
     UserProfile.email := ins_email v |}.

Definition serve_insertEmployee (v : EmployeeInsert) (b : Backend) : Backend :=
  {| accounts := accounts b; auth_session := auth_session b;
     departments := departments b;
     employees := employees b ++ [new_row v b];
     next_uuid := S (next_uuid b); now := now b |}.

End Supabase.

(* ------------------------------------------------------------------------- *)
(** ** The provider: state, effects and operations *)

Module AuthContext.
Import Supabase.

(** The six [useState] cells of [AuthProvider]. *)
Record Store := {
  user : option UserProfile.t;
  session : option Session.t;
  departments : list Department.t;
  isLoading : bool;
  isSigningUp : bool;
  isLoggingIn : bool
}.

(** The initial values passed to [useState]. *)
Definition initial : Store :=
  {| user := None; session := None; departments := [];
     isLoading := true; isSigningUp := false; isLoggingIn := false |}.

(** What the provider shows or logs. *)
Inductive Output :=
| Alert (title message : string)
| ConsoleError (label : string)
| ConsoleLog (label : string).

(** Everything an operation can read or change: the React state, the
    backend, the requests issued so far (oldest first) and the outputs. *)
Record World := {
  store : Store;
  backend : Backend;
  trace : list Exchange;
  outputs : list Output
}.

Definition boot (b : Backend) : World :=
  {| store := initial; backend := b; trace := []; outputs := [] |}.

(** *** The monad of [async] functions: state, and an exception or a value *)

Inductive Completion (A : Type) :=
| Returned (a : A)
| Thrown (e : ApiError.t).
Arguments Returned {A} a.
Arguments Thrown {A} e.

Definition Async (A : Type) : Type := World -> Completion A * World.

Definition ret {A : Type} (a : A) : Async A := fun w => (Returned a, w).

Definition throw {A : Type} (e : ApiError.t) : Async A := fun w => (Thrown e, w).

Definition bind {A B : Type} (m : Async A) (k : A -> Async B) : Async B :=
  fun w =>
    match m w with
    | (Returned a, w') => k a w'
    | (Thrown e, w') => (Thrown e, w')
    end.

(** [try { m } catch (error) { handler error }] *)
Definition try_catch {A : Type} (m : Async A) (handler : ApiError.t -> Async A)
  : Async A :=
  fun w =>
    match m w with
    | (Returned a, w') => (Returned a, w')
    | (Thrown e, w') => handler e w'
    end.

(** [try { m } finally { fin }]: [fin] runs on every path; the completion is
    that of [m] unless [fin] itself throws. *)
Definition try_finally {A : Type} (m : Async A) (fin : Async unit) : Async A :=
  fun w =>
    match m w with
    | (c, w') =>
        match fin w' with
        | (Returned _, w'') => (c, w'')
        | (Thrown e, w'') => (Thrown e, w'')
        end
    end.

Declare Scope async_scope.
Delimit Scope async_scope with async.
Notation "x <- m ;; k" := (bind m (fun x => k))
  (at level 61, m at next level, right associativity) : async_scope.
Notation "m ;; k" := (bind m (fun _ => k))
  (at level 61, right associativity) : async_scope.
Local Open Scope async_scope.

(** *** State setters and outputs *)

Definition with_store (f : Store -> Store) : Async unit :=
  fun w => (Returned tt,
            {| store := f (store w); backend := backend w;
               trace := trace w; outputs := outputs w |}).

Definition setUser (u : option UserProfile.t) : Async unit :=
  with_store (fun s =>
    {| user := u; session := session s; departments := departments s;
       isLoading := isLoading s; isSigningUp := isSigningUp s;
       isLoggingIn := isLoggingIn s |}).

Definition setSession (x : option Session.t) : Async unit :=
  with_store (fun s =>
    {| user := user s; session := x; departments := departments s;
       isLoading := isLoading s; isSigningUp := isSigningUp s;
       isLoggingIn := isLoggingIn s |}).

Definition setDepartments (l : list Department.t) : Async unit :=
  with_store (fun s =>
    {| user := user s; session := session s; departments := l;
       isLoading := isLoading s; isSigningUp := isSigningUp s;
       isLoggingIn := isLoggingIn s |}).

Definition setIsLoading (v : bool) : Async unit :=
  with_store (fun s =>
    {| user := user s; session := session s; departments := departments s;
       isLoading := v; isSigningUp := isSigningUp s;
       isLoggingIn := isLoggingIn s |}).

Definition setIsLoggingIn (v : bool) : Async unit :=
  with_store (fun s =>
    {| user := user s; session := session s; departments := departments s;
       isLoading := isLoading s; isSigningUp := isSigningUp s;
       isLoggingIn := v |}).

Definition emit (o : Output) : Async unit :=
  fun w => (Returned tt,
            {| store := store w; backend := backend w;
               trace := trace w; outputs := outputs w ++ [o] |}).

Definition logged (x : Exchange) (b : Backend) (w : World) : World :=
  {| store := store w; backend := b;
     trace := trace w ++ [x]; outputs := outputs w |}.

(** The exchanges and the outputs a run of [m] from [w] adds. *)
Definition issued {A : Type} (m : Async A) (w : World) : list Exchange :=
  skipn (length (trace w)) (trace (snd (m w))).

Definition shown {A : Type} (m : Async A) (w : World) : list Output :=
  skipn (length (outputs w)) (outputs (snd (m w))).

Section Requests.
Variable net : Net.

(** A request whose reply is [{data, error}]: [serve] is what a healthy
    backend answers. *)
Definition request {A : Type} (r : Request)
    (serve : Backend -> (A + ApiError.t) * Backend) : Async (A + ApiError.t) :=
  fun w =>
    match raises net r with
    | Some e => (Thrown e, logged (r, Raised e) (backend w) w)
    | None =>
        match rejects net r with
        | Some e => (Returned (inr e), logged (r, Refused e) (backend w) w)
        | None =>
            match serve (backend w) with
            | (inl a, b') => (Returned (inl a), logged (r, Served) b' w)
            | (inr e, b') => (Returned (inr e), logged (r, Refused e) b' w)
            end
        end
    end.

(** [const { data: { session } } = await supabase.auth.getSession()]: the
    reply holds the persisted session, or no session and an [error]; the
    pattern keeps [data.session] and binds nothing to [error]. *)
Definition auth_getSession : Async (option Session.t) :=
  r <- request GetSession (fun b => (inl (auth_session b), b)) ;;
  match r with
  | inl s => ret s
  | inr _ => ret None
  end.

Definition auth_signInWithPassword (email password : string) : Async SignInData :=
  r <- request SignInWithPassword (fun b =>
         match serve_signInWithPassword email password b with
         | (d, b') =>
             match signin_error d with
             | None => (inl d, b')
             | Some e => (inr e, b')
             end
         end) ;;
  match r with
  | inl d => ret d
  | inr e => ret {| data_session := None; data_user := None;
                    signin_error := Some e |}
  end.

Definition auth_signOut : Async (unit + ApiError.t) :=
  request SignOut (fun b => (inl tt, serve_signOut b)).

Definition selectDepartments : Async (list Department.t + ApiError.t) :=
  request SelectDepartments (fun b => (inl (serve_selectDepartments b), b)).

Definition selectDepartmentId (name : string) : Async (string + ApiError.t) :=
  request SelectDepartmentId (fun b => (serve_selectDepartmentId name b, b)).

Definition selectActiveEmployee (userId : string) : Async (UserProfile.t + ApiError.t) :=
  request SelectActiveEmployee (fun b => (serve_selectActiveEmployee userId b, b)).

Definition selectEmployee (userId : string) : Async (UserProfile.t + ApiError.t) :=
  request SelectEmployee (fun b => (serve_selectEmployee userId b, b)).

Definition insertEmployee (v : EmployeeInsert) : Async (unit + ApiError.t) :=
  request InsertEmployee (fun b => (inl tt, serve_insertEmployee v b)).

End Requests.

(** *** The operations of [AuthProvider] *)

(** The events delivered to the [onAuthStateChange] callback. *)
Inductive AuthChangeEvent :=
| INITIAL_SESSION
| SIGNED_IN
| SIGNED_OUT
| TOKEN_REFRESHED
| USER_UPDATED
| PASSWORD_RECOVERY.

Section Provider.
Variable net : Net.

Definition loadDepartments : Async unit :=
  try_catch
    (r <- selectDepartments net ;;
     match r with
     | inr error => throw error
     | inl data => setDepartments data
     end)
    (fun error => emit (ConsoleError "Failed to load departments:")).

Definition fetchUserProfile (userId : string) : Async (option UserProfile.t) :=
  try_catch
    (r <- selectActiveEmployee net userId ;;
     match r with
     | inr error =>
         if (ApiError.code error =? "PGRST116")%string
         then emit (ConsoleLog "No employee profile found for new user:") ;;
              ret None
         else emit (ConsoleError "Error fetching user profile:") ;;
              ret None
     | inl data => ret (Some data)
     end)
    (fun error => emit (ConsoleError "Error fetching user profile:") ;;
                  ret None).

Definition refreshUser : Async unit :=
  try_catch
    (currentSession <- auth_getSession net ;;
     match session_user currentSession with
     | Some u =>
         r <- selectEmployee net (User.id u) ;;
         match r with
         | inr error => throw error
         | inl employeeData =>
             setUser (Some employeeData) ;;
             setSession currentSession
         end
     | None =>
         setUser None ;;
         setSession None
     end)
    (fun error => emit (ConsoleError "Error refreshing user:") ;;
                  throw error).

Definition login (email password : string) : Async bool :=
  try_finally
    (try_catch
       (setIsLoggingIn true ;;
        data <- auth_signInWithPassword net
                  (Js.trim (Js.toLowerCase email)) password ;;
        match signin_error data with
        | Some error =>
            emit (Alert "Login Failed" (ApiError.message error)) ;;
            ret false
        | None =>
            match data_session data, data_user data with
            | Some s, Some u =>
                userProfile <- fetchUserProfile (User.id u) ;;
                match userProfile with
                | None =>
                    setSession (Some s) ;;
                    ret true
                | Some p =>
                    if negb (UserProfile.is_active p)
                    then auth_signOut net ;;
                         emit (Alert "Account Disabled"
                                 "Your account has been disabled.") ;;
                         ret false
                    else setSession (Some s) ;;
                         setUser (Some p) ;;
                         ret true
                end
            | _, _ =>
                emit (Alert "Login Failed" "No session or user data returned") ;;
                ret false
            end
        end)
       (fun error =>
          emit (Alert "Login Failed" (ApiError.message error)) ;;
          ret false))
    (setIsLoggingIn false).

Definition completeEmployeeProfile
    (userId fullName employeeNumber departmentName : string)
    (phoneNumber companyName position email : option string) : Async bool :=
  try_catch
    (d <- selectDepartmentId net departmentName ;;
     match d with
     | inr deptError =>
         emit (ConsoleError "Department not found:") ;;
         ret false
     | inl departmentId =>
         r <- insertEmployee net
                {| ins_user_id := userId;
                   ins_full_name := fullName;
                   ins_employee_number := employeeNumber;
                   ins_department_id := departmentId;
                   ins_department_name := departmentName;
                   ins_phone_number := Js.or_null phoneNumber;
                   ins_company_name := Js.or_null companyName;
                   ins_email := Js.or_null email;
                   ins_position := Js.or_default position "Employee";
                   ins_is_active := true |} ;;
         match r with
         | inr error =>
             emit (ConsoleError "Profile completion error:") ;;
             ret false
         | inl _ =>
             userProfile <- fetchUserProfile userId ;;
             match userProfile with
             | Some p => setUser (Some p)
             | None => ret tt
             end ;;
             ret true
         end
     end)
    (fun error => emit (ConsoleError "Profile completion failed:") ;;
                  ret false).

Definition logout : Async unit :=
  try_catch
    (auth_signOut net ;;
     setSession None ;;
     setUser None)
    (fun error => emit (Alert "Logout Failed" (ApiError.message error))).

Definition initializeAuth : Async unit :=
  try_finally
    (try_catch
       (loadDepartments ;;
        currentSession <- auth_getSession net ;;
        match session_user currentSession with
        | Some u =>
            userProfile <- fetchUserProfile (User.id u) ;;
            match userProfile with
            | Some p =>
                setSession currentSession ;;
                setUser (Some p)
            | None =>
                setSession currentSession ;;
                setUser None
            end
        | None => ret tt
        end)
       (fun error => emit (ConsoleError "Auth initialization failed:")))
    (setIsLoading false).

Definition onAuthStateChange (event : AuthChangeEvent)
    (newSession : option Session.t) : Async unit :=
  match event with
  | SIGNED_IN =>
      match session_user newSession with
      | Some u =>
          userProfile <- fetchUserProfile (User.id u) ;;
          match userProfile with
          | Some p =>
              setSession newSession ;;
              setUser (Some p)
          | None =>
              setSession newSession ;;
              setUser None
          end
      | None => ret tt
      end
  | SIGNED_OUT =>
      setSession None ;;
      setUser None
  | TOKEN_REFRESHED =>
      match newSession with
      | Some _ => setSession newSession
      | None => ret tt
      end
  | _ => ret tt
  end.

End Provider.

(** *** Histories

    What can happen to a provider after it is created: its operations are
    called, the subscription delivers an event, or the backend changes
    under it (an administrator toggles [is_active], another client signs
    in). Each step runs under its own fault environment. *)

Inductive Call :=
| CallInitialize
| CallLogin (email password : string)
| CallLogout
| CallRefresh
| CallCompleteProfile
    (userId fullName employeeNumber departmentName : string)
    (phoneNumber companyName position email : option string)
| CallEvent (event : AuthChangeEvent) (newSession : option Session.t)
| Outside (b : Backend).

Definition perform (net : Net) (c : Call) (w : World) : World :=
  match c with
  | CallInitialize => snd (initializeAuth net w)
  | CallLogin email password => snd (login net email password w)
  | CallLogout => snd (logout net w)
  | CallRefresh => snd (refreshUser net w)
  | CallCompleteProfile userId fullName employeeNumber departmentName
      phoneNumber companyName position email =>
      snd (completeEmployeeProfile net userId fullName employeeNumber
             departmentName phoneNumber companyName position email w)
  | CallEvent event newSession => snd (onAuthStateChange net event newSession w)
  | Outside b =>
      {| store := store w; backend := b;
         trace := trace w; outputs := outputs w |}
  end.

Fixpoint replay (history : list (Net * Call)) (w : World) : World :=
  match history with
  | [] => w
  | (net, c) :: rest => replay rest (perform net c w)
  end.

Definition is_refresh (c : Call) : bool :=
  match c with
  | CallRefresh => true
  | _ => false
  end.

(** *** What a run leaves behind

    Closed descriptions of the results of the read-only steps, each proved
    below to be what the operation computes. *)

(** The session the provider reads off the reply of [auth.getSession]:
    [data.session], the [error] beside it being left unread. *)
Definition session_read (net : Net) (b : Backend) : option Session.t :=
  match rejects net GetSession with
  | Some _ => None
  | None => auth_session b
  end.

(** The profile [fetchUserProfile] resolves to. *)
Definition fetched (net : Net) (userId : string) (b : Backend)
  : option UserProfile.t :=
  match raises net SelectActiveEmployee, rejects net SelectActiveEmployee with
  | None, None =>
      match serve_selectActiveEmployee userId b with
      | inl p => Some p
      | inr _ => None
      end
  | _, _ => None
  end.

(** The department list after [loadDepartments]. *)
Definition listed (net : Net) (b : Backend) (old : list Department.t)
  : list Department.t :=
  match raises net SelectDepartments, rejects net SelectDepartments with
  | None, None => serve_selectDepartments b
  | _, _ => old
  end.

(** The store after [initializeAuth]. *)
Definition mounted (net : Net) (b : Backend) (s : Store) : Store :=
  match raises net GetSession, session_read net b with
  | None, Some x =>
      {| user := fetched net (User.id (Session.user x)) b;
         session := Some x;
         departments := listed net b (departments s);
         isLoading := false; isSigningUp := isSigningUp s;
         isLoggingIn := isLoggingIn s |}
  | _, _ =>
      {| user := user s; session := session s;
         departments := listed net b (departments s);
         isLoading := false; isSigningUp := isSigningUp s;
         isLoggingIn := isLoggingIn s |}
  end.

(** The columns [completeEmployeeProfile] sends to the insert. *)
Definition profile_values
    (userId fullName employeeNumber departmentId departmentName : string)
    (phoneNumber companyName position email : option string) : EmployeeInsert :=
  {| ins_user_id := userId;
     ins_full_name := fullName;
     ins_employee_number := employeeNumber;
     ins_department_id := departmentId;
     ins_department_name := departmentName;
     ins_phone_number := Js.or_null phoneNumber;
     ins_company_name := Js.or_null companyName;
     ins_email := Js.or_null email;
     ins_position := Js.or_default position "Employee";
     ins_is_active := true |}.

(** Where the profile in [w'] comes from: it is the one of [w], or none, or
    one that [fetchUserProfile] resolved. *)
Definition kept_or_fetched (net : Net) (w w' : World) : Prop :=
  user (store w') = user (store w)
  \/ user (store w') = None
  \/ exists userId b p, fetched net userId b = Some p /\ user (store w') = Some p.

(** The gate of the data model: a stored profile is an active one. *)
Definition active_only (s : Store) : Prop :=
  forall p, user s = Some p -> UserProfile.is_active p = true.

End AuthContext.

(* ------------------------------------------------------------------------- *)
(** ** A small installation

    Three accounts: alice has an active profile, bob a deactivated one, carol
    none yet. Used to run the operations on concrete inputs. *)

Module Demo.
Import Supabase AuthContext.

Definition account (uid email password : string) : Account :=
  {| login_email := email;
     login_password := password;
     grant := {| Session.access_token := "access-" ++ uid;
                 Session.refresh_token := "refresh-" ++ uid;
                 Session.expires_at := 3600;
                 Session.user := {| User.id := uid; User.email := email |} |} |}.

Definition row (rid uid name number : string) (active : bool) : UserProfile.t :=
  {| UserProfile.id := rid;
     UserProfile.full_name := name;
     UserProfile.employee_number := number;
     UserProfile.position := "Employee";
     UserProfile.department_id := Some "dep-2";
     UserProfile.department_name := Some "Warehouse";
     UserProfile.is_active := active;
     UserProfile.created_at := Some "2024-01-01T00:00:00Z";
     UserProfile.user_id := uid;
     UserProfile.phone_number := None;
     UserProfile.company_name := None;
     UserProfile.email := None |}.

Definition alice : Account := account "user-1" "alice@example.com" "alice-secret".
Definition bob : Account := account "user-2" "bob@example.com" "bob-secret".
Definition carol : Account := account "user-3" "carol@example.com" "carol-secret".

Definition alice_row : UserProfile.t := row "emp-1" "user-1" "Alice" "E-001" true.
Definition bob_row : UserProfile.t := row "emp-2" "user-2" "Bob" "E-002" false.

Definition site : Backend :=
  {| accounts := [alice; bob; carol];
     auth_session := None;
     Supabase.departments :=
       [ {| Department.id := "dep-2"; Department.name := "Warehouse" |};
         {| Department.id := "dep-1"; Department.name := "Construction" |} ];
     employees := [alice_row; bob_row];
     next_uuid := 3;
     now := "2024-06-01T08:00:00Z" |}.

Definition network_error : ApiError.t :=
  {| ApiError.code := ""; ApiError.message := "Network request failed" |}.

Definition request_eqb (x y : Request) : bool :=
  match x, y with
  | SignInWithPassword, SignInWithPassword
  | SignOut, SignOut
  | GetSession, GetSession
  | SelectDepartments, SelectDepartments
  | SelectDepartmentId, SelectDepartmentId
  | SelectActiveEmployee, SelectActiveEmployee
  | SelectEmployee, SelectEmployee
  | InsertEmployee, InsertEmployee => true
  | _, _ => false
  end.

(** The network drops request [q]: its promise is rejected. *)
Definition dropping (q : Request) : Net :=
  {| rejects := fun _ => None;
     raises := fun r => if request_eqb r q then Some network_error else None |}.

(** The backend answers request [q] with an error. *)
Definition refusing (q : Request) : Net :=
  {| rejects := fun r => if request_eqb r q then Some network_error else None;
     raises := fun _ => None |}.

(** An administrator switches off the profiles of user [uid]. *)
Definition deactivate (uid : string) (b : Backend) : Backend :=
  {| accounts := accounts b; auth_session := auth_session b;
     Supabase.departments := Supabase.departments b;
     employees :=
       map (fun p =>
              if (UserProfile.user_id p =? uid)%string
              then {| UserProfile.id := UserProfile.id p;
                      UserProfile.full_name := UserProfile.full_name p;
                      UserProfile.employee_number := UserProfile.employee_number p;
                      UserProfile.position := UserProfile.position p;
                      UserProfile.department_id := UserProfile.department_id p;
                      UserProfile.department_name := UserProfile.department_name p;
                      UserProfile.is_active := false;
                      UserProfile.created_at := UserProfile.created_at p;
                      UserProfile.user_id := UserProfile.user_id p;
                      UserProfile.phone_number := UserProfile.phone_number p;
                      UserProfile.company_name := UserProfile.company_name p;
                      UserProfile.email := UserProfile.email p |}
              else p)
           (employees b);
     next_uuid := next_uuid b; now := now b |}.

(** The backend once the client has persisted the session of [a]. *)
Definition with_session (a : Account) (b : Backend) : Backend :=
  {| accounts := accounts b; auth_session := Some (grant a);
     Supabase.departments := Supabase.departments b;
     employees := employees b;
     next_uuid := next_uuid b; now := now b |}.

(** A provider holding the session of [a] and the profile [p], in front of
    backend [b]. *)
Definition holding (a : Account) (p : UserProfile.t) (b : Backend) : World :=
  {| store := {| user := Some p; session := Some (grant a); departments := [];
                 isLoading := false; isSigningUp := false; isLoggingIn := false |};
     backend := b;
     trace := []; outputs := [] |}.

End Demo.

(* ------------------------------------------------------------------------- *)
(** ** Further definitions *)

Module Outcome.
Import Supabase AuthContext.

(** The exception a run ends with, if any. *)
Definition thrown {A : Type} (r : Completion A * World) : option ApiError.t :=
  match fst r with
  | Thrown e => Some e
  | Returned _ => None
  end.

(** The exception that escapes a step of a history. *)
Definition escapes (net : Net) (c : Call) (w : World) : option ApiError.t :=
  match c with
  | CallInitialize => thrown (initializeAuth net w)
  | CallLogin email password => thrown (login net email password w)
  | CallLogout => thrown (logout net w)
  | CallRefresh => thrown (refreshUser net w)
  | CallCompleteProfile userId fullName employeeNumber departmentName
      phoneNumber companyName position email =>
      thrown (completeEmployeeProfile net userId fullName employeeNumber
                departmentName phoneNumber companyName position email w)
  | CallEvent event newSession => thrown (onAuthStateChange net event newSession w)
  | Outside _ => None
  end.

Definition is_outside (c : Call) : bool :=
  match c with
  | Outside _ => true
  | _ => false
  end.

(** A string that is empty or starts with a visible character: what
    [trimStart] returns. *)
Definition starts_visible (s : string) : Prop :=
  match s with
  | EmptyString => True
  | String c _ => Js.is_space c = false
  end.

(** What one step may change in the backend and in the loading flag. *)
Definition framed (w w' : World) : Prop :=
  accounts (backend w') = accounts (backend w)
  /\ Supabase.departments (backend w') = Supabase.departments (backend w)
  /\ (exists new, employees (backend w') = employees (backend w) ++ new
                  /\ length new <= 1)
  /\ (isLoading (store w) = false -> isLoading (store w') = false).

End Outcome.

(* ------------------------------------------------------------------------- *)
(** ** Sign-up *)

(** [signup] of the provider. The provider's trace has no entry for the
    sign-up request, so the auth server's answer is taken as a parameter: a
    reply [{data: {user}, error}] together with the backend it leaves, or a
    rejected promise. The request is not recorded in [trace]. *)
Module SignUp.
Import Supabase AuthContext.
Local Open Scope async_scope.

Record SignUpData := {
  signup_user : option User.t;
  signup_error : option ApiError.t
}.

Definition AuthServer : Type :=
  string -> string -> Backend -> (SignUpData * Backend) + ApiError.t.

Definition auth_signUp (server : AuthServer) (email password : string)
  : Async SignUpData :=
  fun w =>
    match server email password (backend w) with
    | inl (d, b') =>
        (Returned d,
         {| store := store w; backend := b';
            trace := trace w; outputs := outputs w |})
    | inr e => (Thrown e, w)
    end.

Definition setIsSigningUp (v : bool) : Async unit :=
  with_store (fun s =>
    {| user := user s; session := session s; departments := departments s;
       isLoading := isLoading s; isSigningUp := v;
       isLoggingIn := isLoggingIn s |}).

Definition signup (server : AuthServer)
    (email password fullName employeeNumber departmentName : string)
    (phoneNumber companyName position : option string) : Async bool :=
  try_finally
    (try_catch
       (setIsSigningUp true ;;
        emit (ConsoleLog "=== SIGNUP ATTEMPT ===") ;;
        emit (ConsoleLog "Email:") ;;
        emit (ConsoleLog "Full Name:") ;;
        authData <- auth_signUp server (Js.trim (Js.toLowerCase email)) password ;;
        emit (ConsoleLog "Auth response:") ;;
        emit (ConsoleLog "Auth error:") ;;
        match signup_error authData with
        | Some authError =>
            emit (Alert "Signup Failed" (ApiError.message authError)) ;;
            ret false
        | None =>
            match signup_user authData with
            | None =>
                emit (Alert "Signup Failed" "No user data returned") ;;
                ret false
            | Some _ =>
                emit (Alert "Success!"
                        ("Account created successfully! Please check your email for verification. "
                         ++ "You can complete your employee profile after verification.")) ;;
                emit (ConsoleLog "User created successfully:") ;;
                ret true
            end
        end)
       (fun error =>
          emit (ConsoleError "Signup error:") ;;
          emit (Alert "Signup Failed" (ApiError.message error)) ;;
          ret false))
    (setIsSigningUp false).

End SignUp.

(* ------------------------------------------------------------------------- *)
(** ** The screens that call the provider *)

Module Screens.
Import Supabase AuthContext.
Local Open Scope async_scope.

(** [const { user, session, ... } = useAuth()]: the cells a handler closes
    over, read when the handler starts. *)
Definition useAuth : Async Store := fun w => (Returned (store w), w).

(** Truthiness of an object-or-null. *)
Definition truthy {A : Type} (x : option A) : bool :=
  match x with
  | Some _ => true
  | None => false
  end.

Inductive Route :=
| RouteLogin             (* '/(auth)/login' *)
| RouteCompleteProfile   (* '/(auth)/complete-profile' *)
| RouteAnalytics.        (* '/(tabs)/analytics' *)

(** *** The root layout: where [RootLayoutNav] redirects *)

Definition redirect (s : Store) : option Route :=
  if negb (isLoading s) then
    if truthy (session s) && negb (truthy (user s)) then Some RouteCompleteProfile
    else if truthy (session s) && truthy (user s) then Some RouteAnalytics
    else if negb (truthy (session s)) then Some RouteLogin
    else None
  else None.

(** *** The tab layout: the logout button

    The result is the screen's [isLoggingOut] flag when the handler ends.
    The rotation animation is left out. *)
Definition tab_handleLogout (net : Net) : Async bool :=
  try_catch
    (logout net ;;
     ret true)
    (fun error =>
       emit (ConsoleError "Logout error:") ;;
       ret false).

(** *** The profile screen *)

(** The confirmed "Logout" button: the result is the screen's
    [isLoggingOut] flag and the routes passed to [router.replace]. *)
Definition profile_confirmLogout (net : Net) : Async (bool * list Route) :=
  emit (ConsoleLog "Logout initiated...") ;;
  try_catch
    (logout net ;;
     emit (ConsoleLog "Logout successful, redirecting to login...") ;;
     ret (true, [RouteLogin]))
    (fun error =>
       emit (ConsoleError "Logout error in component:") ;;
       emit (Alert "Logout Failed"
               (if (ApiError.message error =? "")%string
                then "Unable to logout. Please try again."
                else ApiError.message error)) ;;
       ret (true, [])).

Definition refreshUserData (net : Net) : Async unit :=
  try_catch
    (refreshUser net ;;
     emit (ConsoleLog "Profile data refreshed successfully"))
    (fun error =>
       emit (ConsoleError "Error refreshing profile data:") ;;
       throw error).

(** Pull-to-refresh. The [refreshing] flag is switched off by a timer and is
    left out. *)
Definition onRefresh (net : Net) : Async unit :=
  emit (ConsoleLog "Pull-to-refresh triggered") ;;
  try_catch
    (refreshUserData net)
    (fun error => emit (ConsoleError "Refresh failed:")).

(** *** The complete-profile screen *)

Record ProfileForm := {
  fullName : string;
  department : string;
  phoneNumber : string;
  companyName : string
}.

(** [x || undefined] on a string. *)
Definition or_undefined (x : string) : option string :=
  if (x =? "")%string then None else Some x.

(** [session?.user?.id], falsy also when the id is the empty string. *)
Definition session_user_id (s : option Session.t) : option string :=
  match s with
  | Some x => or_undefined (User.id (Session.user x))
  | None => None
  end.

(** [user?.employee_number || generateEmployeeNumber()], the generated
    number being given. *)
Definition employee_number_for (u : option UserProfile.t) (generated : string)
  : string :=
  match u with
  | Some p =>
      if (UserProfile.employee_number p =? "")%string
      then generated
      else UserProfile.employee_number p
  | None => generated
  end.

(** [handleCompleteProfile]: [loading] is the screen's [isLoading] flag
    before, the result is the flag after ([setIsLoading(true)] before the
    [try], [setIsLoading(false)] in its [finally]). [generated] is what
    [generateEmployeeNumber()] returns. *)
Definition handleCompleteProfile (net : Net) (generated : string)
    (formData : ProfileForm) (loading : bool) : Async bool :=
  ctx <- useAuth ;;
  if (Js.trim (fullName formData) =? "")%string then
    emit (Alert "Error" "Please enter your full name") ;;
    ret loading
  else if (department formData =? "")%string then
    emit (Alert "Error" "Please select your department") ;;
    ret loading
  else
    match session_user_id (session ctx), session ctx with
    | Some userId, Some s =>
        try_catch
          (success <- completeEmployeeProfile net
                        userId
                        (Js.trim (fullName formData))
                        (employee_number_for (user ctx) generated)
                        (department formData)
                        (or_undefined (Js.trim (phoneNumber formData)))
                        (or_undefined (Js.trim (companyName formData)))
                        (Some "Employee")
                        (Some (User.email (Session.user s))) ;;
           if success : bool then
             emit (Alert "Success"
                     (if truthy (user ctx)
                      then "Profile updated successfully!"
                      else "Profile completed successfully!"))
           else
             emit (Alert "Error" "Failed to save profile. Please try again."))
          (fun error =>
             emit (ConsoleError "Profile completion error:") ;;
             emit (Alert "Error" "Something went wrong. Please try again.")) ;;
        ret false
    | _, _ =>
        emit (Alert "Error" "No user session found") ;;
        ret loading
    end.

End Screens.

(* ------------------------------------------------------------------------- *)
(** ** The forms in front of the provider *)

(** Regular expressions of the shape used by the screens: a sequence of
    items, each a literal character or [\S+]. [test] is
    [RegExp.prototype.test] without anchors: a match may start anywhere. *)
Module Regex.

Inductive Item :=
| Lit (c : ascii)
| VisiblePlus.        (* \S+ *)

Fixpoint match_here (pattern : list Item) : string -> bool :=
  match pattern with
  | [] => fun _ => true
  | Lit c :: rest =>
      fun s =>
        match s with
        | String d s' => Ascii.eqb d c && match_here rest s'
        | EmptyString => false
        end
  | VisiblePlus :: rest =>
      fix plus (s : string) : bool :=
        match s with
        | String d s' => negb (Js.is_space d) && (match_here rest s' || plus s')
        | EmptyString => false
        end
  end.

Fixpoint test (pattern : list Item) (s : string) : bool :=
  match_here pattern s
  || match s with
     | String _ s' => test pattern s'
     | EmptyString => false
     end.

(** [/\S+@\S+\.\S+/] *)
Definition email_pattern : list Item :=
  [VisiblePlus; Lit "@"; VisiblePlus; Lit "."; VisiblePlus].

(** Some character of [s] is in the class: [/(?=.*[...])/.test(s)]. *)
Fixpoint contains (class : ascii -> bool) (s : string) : bool :=
  match s with
  | String c s' => class c || contains class s'
  | EmptyString => false
  end.

Definition between (lo hi : nat) (c : ascii) : bool :=
  (lo <=? nat_of_ascii c) && (nat_of_ascii c <=? hi).

Definition lowercase : ascii -> bool := between 97 122.   (* [a-z] *)
Definition uppercase : ascii -> bool := between 65 90.    (* [A-Z] *)
Definition digit : ascii -> bool := between 48 57.        (* \d *)

(** [[@$!%*?&#]] *)
Definition special (c : ascii) : bool :=
  existsb (Ascii.eqb c) (list_ascii_of_string "@$!%*?&#").

(** Patterns all of whose items consume visible characters only, and whose
    literals are not changed by lower-casing. *)
Definition plain_item (it : Item) : Prop :=
  match it with
  | Lit c => Js.is_space c = false
             /\ forall d, Ascii.eqb (Js.lower d) c = Ascii.eqb d c
  | VisiblePlus => True
  end.

End Regex.

(** The login / sign-up screen. *)
Module AuthScreen.
Import Regex.

Inductive AuthMode := LoginMode | SignupMode.

Record FormData := {
  email : string;
  password : string;
  confirmPassword : string
}.

(** The [errors] state: one message per field, empty when the field is
    fine. *)
Record Errors := {
  email_error : string;
  password_error : string;
  confirmPassword_error : string
}.

(** [validateField(name, value)]: the object passed to [setErrors], built
    from the [errors], [formData] and [authMode] of the current render. *)
Definition validateField (authMode : AuthMode) (formData : FormData)
    (errors : Errors) (name value : string) : Errors :=
  if (name =? "email")%string then
    {| email_error :=
         if (value =? "")%string then "Email is required"
         else if negb (test email_pattern value) then "Email is invalid"
         else "";
       password_error := password_error errors;
       confirmPassword_error := confirmPassword_error errors |}
  else if (name =? "password")%string then
    if (value =? "")%string then
      {| email_error := email_error errors;
         password_error := "Password is required";
         confirmPassword_error := confirmPassword_error errors |}
    else
      match authMode with
      | SignupMode =>
          {| email_error := email_error errors;
             password_error :=
               if String.length value <? 8
               then "Password must be at least 8 characters"
               else if negb (contains lowercase value)
               then "Must contain at least one lowercase letter"
               else if negb (contains uppercase value)
               then "Must contain at least one uppercase letter"
               else if negb (contains digit value)
               then "Must contain at least one number"
               else if negb (contains special value)
               then "Must contain a special character (@$!%*?&#)"
               else "";
             confirmPassword_error :=
               if negb (confirmPassword formData =? "")%string
               then if negb (value =? confirmPassword formData)%string
                    then "Passwords do not match"
                    else ""
               else confirmPassword_error errors |}
      | LoginMode =>
          {| email_error := email_error errors;
             password_error :=
               if String.length value <? 6
               then "Password must be at least 6 characters"
               else "";
             confirmPassword_error := confirmPassword_error errors |}
      end
  else if (name =? "confirmPassword")%string then
    match authMode with
    | SignupMode =>
        {| email_error := email_error errors;
           password_error := password_error errors;
           confirmPassword_error :=
             if (value =? "")%string then "Please confirm your password"
             else if negb (value =? password formData)%string
             then "Passwords do not match"
             else "" |}
    | LoginMode => errors
    end
  else errors.

Definition no_errors : Errors :=
  {| email_error := ""; password_error := ""; confirmPassword_error := "" |}.

End AuthScreen.

(** The reset-password screen. *)
Module ResetPassword.

Record Errors := {
  newPassword_error : string;
  confirmPassword_error : string
}.

(** [validateForm()]: the errors it sets and the boolean it returns. *)
Definition validateForm (newPassword confirmPassword : string) : bool * Errors :=
  let newErrors :=
    {| newPassword_error :=
         if (newPassword =? "")%string then "New password is required"
         else if String.length newPassword <? 6
         then "Password must be at least 6 characters"
         else "";
       confirmPassword_error :=
         if (confirmPassword =? "")%string then "Please confirm your password"
         else if negb (newPassword =? confirmPassword)%string
         then "Passwords do not match"
         else "" |} in
  ((newPassword_error newErrors =? "")%string
   && (confirmPassword_error newErrors =? "")%string,
   newErrors).

End ResetPassword.

(* ------------------------------------------------------------------------- *)
(** ** Properties *)

Import Supabase AuthContext Outcome SignUp Screens Regex.
Local Open Scope async_scope.

(** *** Proof support *)

Lemma skipn_length_app {A : Type} (l t : list A) :
  skipn (length l) (l ++ t) = t.
Proof.
  induction l as [|x l IH]; simpl; [reflexivity | exact IH].
Qed.

Lemma skipn_length_app2 {A : Type} (l : list A) (x : A) (t : list A) :
  skipn (length l) ((l ++ [x]) ++ t) = x :: t.
Proof.
  rewrite <- app_assoc. apply skipn_length_app.
Qed.

Lemma skipn_length_app3 {A : Type} (l : list A) (x y : A) (t : list A) :
  skipn (length l) (((l ++ [x]) ++ [y]) ++ t) = x :: y :: t.
Proof.
  rewrite <- !app_assoc. apply skipn_length_app.
Qed.

Lemma skipn_length_self {A : Type} (l : list A) :
  skipn (length l) l = [].
Proof.
  rewrite <- (app_nil_r l) at 2. apply skipn_length_app.
Qed.

(** Unfolds the monad and the request layer. *)
Ltac unfold_async :=
  unfold issued, shown, auth_signInWithPassword, auth_signOut,
    selectDepartments, selectDepartmentId, selectActiveEmployee,
    selectEmployee, insertEmployee, auth_getSession, request,
    bind, ret, throw, try_catch, try_finally,
    setUser, setSession, setDepartments, setIsLoading, setIsLoggingIn,
    with_store, emit, logged in *.

(** Splits on a scrutinee of the goal that has no scrutinee inside it. *)
Ltac split_match :=
  match goal with
  | |- context [match ?x with _ => _ end] =>
      lazymatch x with
      | context [match _ with _ => _ end] => fail
      | _ => destruct x eqn:?
      end
  end.

(** The same, forgetting the equation. *)
Ltac split_match_ :=
  match goal with
  | |- context [match ?x with _ => _ end] =>
      lazymatch x with
      | context [match _ with _ => _ end] => fail
      | _ => destruct x
      end
  end.

Ltac run := unfold_async; cbn; repeat (split_match; cbn).
Ltac run_ := unfold_async; cbn; repeat (split_match_; cbn).

Ltac tidy_logs :=
  rewrite ?skipn_length_app3, ?skipn_length_app2, ?skipn_length_app,
    ?skipn_length_self in *.

(** *** The profile fetch *)

(** [fetchUserProfile] never throws and changes neither the store nor the
    backend; it issues one request and shows no alert. *)
Lemma fetchUserProfile_run (net : Net) (userId : string) (w : World) :
  exists w',
    fetchUserProfile net userId w = (Returned (fetched net userId (backend w)), w')
    /\ store w' = store w
    /\ backend w' = backend w
    /\ (exists a, trace w' = trace w ++ [(SelectActiveEmployee, a)])
    /\ (exists o, outputs w' = outputs w ++ o
                  /\ forall t m, ~ In (Alert t m) o).
Proof.
  unfold fetchUserProfile, fetched. run; eexists; repeat split;
    try (eexists; reflexivity);
    try (exists []; rewrite app_nil_r; split; [reflexivity | intros ? ? []]);
    eexists; (split; [reflexivity |]); intros ? ? [|[]]; discriminate.
Qed.

(** A fetched profile is an active row of the table, owned by the user asked
    for: the query filters on both columns. *)
Lemma fetched_active (net : Net) (userId : string) (b : Backend) (p : UserProfile.t) :
  fetched net userId b = Some p ->
  UserProfile.is_active p = true
  /\ UserProfile.user_id p = userId
  /\ In p (employees b).
Proof.
  unfold fetched, serve_selectActiveEmployee, single.
  destruct (raises net SelectActiveEmployee); [discriminate|].
  destruct (rejects net SelectActiveEmployee); [discriminate|].
  destruct (active_profiles_of userId b) as [|q [|? ?]] eqn:E; try discriminate.
  intros [= <-].
  assert (H : In q (active_profiles_of userId b)) by (rewrite E; left; reflexivity).
  unfold active_profiles_of, profiles_of in H.
  rewrite !filter_In in H. destruct H as [[Hin Hu] Ha].
  repeat split.
  - now destruct (UserProfile.is_active q).
  - now apply String.eqb_eq.
  - exact Hin.
Qed.

(** No row at all for the user: nothing is fetched, whatever the network. *)
Lemma fetched_none (net : Net) (userId : string) (b : Backend) :
  active_profiles_of userId b = [] -> fetched net userId b = None.
Proof.
  unfold fetched, serve_selectActiveEmployee. intros ->.
  now destruct (raises net SelectActiveEmployee), (rejects net SelectActiveEmployee).
Qed.

Arguments fetchUserProfile : simpl never.

(** A user without any row in [employees]. *)
Lemma profiles_of_nil (userId : string) (b : Backend) :
  (forall p, In p (employees b) -> UserProfile.user_id p <> userId) ->
  profiles_of userId b = [].
Proof.
  unfold profiles_of. intros H.
  induction (employees b) as [|q l IH]; [reflexivity|].
  simpl. destruct (String.eqb_spec (UserProfile.user_id q) userId) as [E|_].
  - exfalso. apply (H q); [left; reflexivity | exact E].
  - apply IH. intros p Hp. apply H. right. exact Hp.
Qed.

Lemma fetched_no_profile (net : Net) (userId : string) (b : Backend) :
  profiles_of userId b = [] -> fetched net userId b = None.
Proof.
  intros H. apply fetched_none. unfold active_profiles_of. now rewrite H.
Qed.

(** A user all of whose rows are deactivated looks, to the fetch, like a user
    without a row. *)
Lemma fetched_deactivated (net : Net) (userId : string) (b : Backend) :
  (forall p, In p (profiles_of userId b) -> UserProfile.is_active p = false) ->
  fetched net userId b = None.
Proof.
  intros H. apply fetched_none. unfold active_profiles_of.
  induction (profiles_of userId b) as [|q l IH]; [reflexivity|].
  simpl. rewrite (H q) by (left; reflexivity). simpl.
  apply IH. intros p Hp. apply H. right. exact Hp.
Qed.

(** *** Mounting *)

Arguments loadDepartments : simpl never.

Lemma loadDepartments_run (net : Net) (w : World) :
  exists w',
    loadDepartments net w = (Returned tt, w')
    /\ backend w' = backend w
    /\ store w' =
         {| user := user (store w); session := session (store w);
            departments := listed net (backend w) (departments (store w));
            isLoading := isLoading (store w);
            isSigningUp := isSigningUp (store w);
            isLoggingIn := isLoggingIn (store w) |}.
Proof.
  unfold loadDepartments, listed. run_; eexists; repeat split;
    now destruct w as [[] ? ? ?].
Qed.

(** A session is read when the reply of [getSession] has no error and the
    backend holds one. *)
Lemma session_read_some (net : Net) (b : Backend) (s : Session.t) :
  session_read net b = Some s ->
  rejects net GetSession = None /\ auth_session b = Some s.
Proof.
  unfold session_read. destruct (rejects net GetSession); [discriminate|].
  now split.
Qed.

Lemma initializeAuth_run (net : Net) (w : World) :
  fst (initializeAuth net w) = Returned tt
  /\ backend (snd (initializeAuth net w)) = backend w
  /\ store (snd (initializeAuth net w)) = mounted net (backend w) (store w).
Proof.
  unfold initializeAuth, mounted, session_read, try_finally, try_catch,
    auth_getSession, request, bind, ret.
  destruct (loadDepartments_run net w) as (w1 & -> & Hb1 & Hs1).
  rewrite ?Hb1.
  destruct (raises net GetSession); cbn.
  - rewrite ?Hb1, Hs1. repeat split; reflexivity.
  - destruct (rejects net GetSession); cbn;
      [rewrite ?Hb1, Hs1; repeat split; reflexivity|].
    destruct (auth_session (backend w)) as [x|]; cbn.
    + match goal with
      | |- context [fetchUserProfile net ?u ?v] =>
          destruct (fetchUserProfile_run net u v) as (w2 & -> & Hs2 & Hb2 & _)
      end.
      cbn in Hs2, Hb2 |- *. rewrite ?Hb1 in *.
      destruct (fetched net (User.id (Session.user x)) (backend w));
        cbn; rewrite ?Hb2, ?Hs2, ?Hs1; repeat split; try reflexivity.
    + rewrite ?Hb1, Hs1. repeat split; reflexivity.
Qed.

(** C9. [initializeAuth] reads the backend and never writes it, so a second
    run meets the same backend, under the same fault environment, as the
    first. The store after two runs in sequence equals the store after one
    run: session, profile, departments and the loading flag, which is
    false. *)
Theorem initializeAuth_idempotent (net : Net) (w : World) :
  let once := snd (initializeAuth net w) in
  let twice := snd (initializeAuth net once) in
  backend once = backend w
  /\ store twice = store once
  /\ session (store twice) = session (store once)
  /\ user (store twice) = user (store once)
  /\ isLoading (store twice) = isLoading (store once)
  /\ isLoading (store once) = false.
Proof.
  intros once twice.
  destruct (initializeAuth_run net w) as (_ & Hb & Hs).
  destruct (initializeAuth_run net once) as (_ & Hb' & Hs').
  fold once in Hb, Hs. fold twice in Hb', Hs'.
  assert (E : store twice = store once).
  { rewrite Hs', Hs, Hb. unfold mounted, listed.
    destruct (raises net GetSession), (session_read net (backend w)),
      (raises net SelectDepartments), (rejects net SelectDepartments);
      reflexivity. }
  repeat split; try (now rewrite E); try exact Hb.
  rewrite Hs. unfold mounted.
  now destruct (raises net GetSession), (session_read net (backend w)).
Qed.

(** The fetch reads the [employees] table and nothing else of the backend. *)
Lemma fetched_ext (net : Net) (userId : string) (b b' : Backend) :
  employees b = employees b' -> fetched net userId b = fetched net userId b'.
Proof.
  unfold fetched, serve_selectActiveEmployee, active_profiles_of, profiles_of.
  now intros ->.
Qed.

(** *** Logging in *)

(** The identifier is lower-cased and trimmed before it is sent. *)
Example login_normalizes_identifier :
  Js.trim (Js.toLowerCase "User@Example.com ") = "user@example.com".
Proof. reflexivity. Qed.

(** With credentials the auth server accepts, every path of [login] ends in
    success: the fetch only ever yields active profiles, so the test on
    [is_active] never fires and [signOut] is never requested. *)
Lemma login_granted (net : Net) (email password : string) (w : World) (a : Account) :
  raises net SignInWithPassword = None ->
  rejects net SignInWithPassword = None ->
  find (credentials_match (Js.trim (Js.toLowerCase email)) password)
       (accounts (backend w)) = Some a ->
  let uid := User.id (Session.user (grant a)) in
  let r := login net email password w in
  fst r = Returned true
  /\ session (store (snd r)) = Some (grant a)
  /\ user (store (snd r)) =
       match fetched net uid (backend w) with
       | Some p => Some p
       | None => user (store w)
       end
  /\ isLoggingIn (store (snd r)) = false
  /\ auth_session (backend (snd r)) = Some (grant a)
  /\ employees (backend (snd r)) = employees (backend w)
  /\ (exists x, issued (login net email password) w =
                [(SignInWithPassword, Served); (SelectActiveEmployee, x)])
  /\ (forall t m, ~ In (Alert t m) (shown (login net email password) w)).
Proof.
  intros Hraise Hreject Hfind uid r. subst r.
  unfold login. unfold_async. unfold serve_signInWithPassword.
  cbn. rewrite Hraise, Hreject, Hfind. cbn.
  match goal with
  | |- context [fetchUserProfile net ?u ?v] =>
      destruct (fetchUserProfile_run net u v)
        as (w2 & -> & Hs2 & Hb2 & [x Ht2] & (o & Ho2 & Hquiet))
  end.
  cbn in Hs2, Hb2, Ht2, Ho2 |- *. fold uid.
  match goal with
  | |- context [fetched net uid ?b] =>
      rewrite (fetched_ext net uid b (backend w) eq_refl)
  end.
  destruct (fetched net uid (backend w)) as [p|] eqn:Hf.
  - destruct (fetched_active _ _ _ _ Hf) as (Ha & _ & _). cbn. rewrite Ha. cbn.
    rewrite Hb2, Ht2, Ho2. cbn. tidy_logs.
    repeat split; try reflexivity; eauto.
  - cbn. rewrite Hb2, Ht2, Ho2, Hs2. cbn. tidy_logs.
    repeat split; try reflexivity; eauto.
Qed.

(** For credentials the auth server accepts (after the identifier is
    lower-cased and trimmed) and a user with no row in [employees], [login]
    returns true and stores the issued session, and it does not write the
    profile cell: the stored profile is the one that was there before the
    call. No alert is shown, whatever the profile request answered. *)
Lemma login_without_profile
    (net : Net) (email password : string) (w : World) (a : Account) :
  raises net SignInWithPassword = None ->
  rejects net SignInWithPassword = None ->
  find (credentials_match (Js.trim (Js.toLowerCase email)) password)
       (accounts (backend w)) = Some a ->
  (forall p, In p (employees (backend w)) ->
             UserProfile.user_id p <> User.id (Session.user (grant a))) ->
  let r := login net email password w in
  fst r = Returned true
  /\ session (store (snd r)) = Some (grant a)
  /\ user (store (snd r)) = user (store w)
  /\ (forall t m, ~ In (Alert t m) (shown (login net email password) w)).
Proof.
  intros Hraise Hreject Hfind Hnone r.
  destruct (login_granted net email password w a Hraise Hreject Hfind)
    as (Hr & Hs & Hu & _ & _ & _ & _ & Hquiet).
  rewrite (fetched_no_profile net _ _ (profiles_of_nil _ _ Hnone)) in Hu.
  subst r. repeat split; assumption.
Qed.


(** With a deactivated profile the outcome is the same as with none: the
    query of [fetchUserProfile] has already dropped the row, so [login] stores
    the session and succeeds, and the backend keeps the session. *)
Lemma login_deactivated_granted
    (net : Net) (email password : string) (w : World) (a : Account) :
  raises net SignInWithPassword = None ->
  rejects net SignInWithPassword = None ->
  find (credentials_match (Js.trim (Js.toLowerCase email)) password)
       (accounts (backend w)) = Some a ->
  (forall p, In p (profiles_of (User.id (Session.user (grant a))) (backend w)) ->
             UserProfile.is_active p = false) ->
  let r := login net email password w in
  fst r = Returned true
  /\ session (store (snd r)) = Some (grant a)
  /\ auth_session (backend (snd r)) = Some (grant a)
  /\ (forall x, ~ In (SignOut, x) (issued (login net email password) w))
  /\ (forall t m, ~ In (Alert t m) (shown (login net email password) w)).
Proof.
  intros Hraise Hreject Hfind Hoff r.
  destruct (login_granted net email password w a Hraise Hreject Hfind)
    as (Hr & Hs & _ & _ & Hb & _ & (x & Hi) & Hquiet).
  subst r. repeat split; try assumption.
  rewrite Hi. intros y [H|[H|[]]]; discriminate.
Qed.

(** C1. At the failing input: bob's credentials are valid and his only
    profile is deactivated. [login] returns true and stores the session; the
    sign-out is never requested, no "Account Disabled" alert is shown, and
    [getSession] afterwards still yields bob's session. *)
Theorem login_deactivated_profile_keeps_session :
  let w := boot Demo.site in
  let r := login healthy "bob@example.com" "bob-secret" w in
  profiles_of "user-2" Demo.site = [Demo.bob_row]
  /\ UserProfile.is_active Demo.bob_row = false
  /\ fst r = Returned true
  /\ session (store (snd r)) = Some (grant Demo.bob)
  /\ user (store (snd r)) = None
  /\ fst (auth_getSession healthy (snd r)) = Returned (Some (grant Demo.bob))
  /\ issued (login healthy "bob@example.com" "bob-secret") w =
       [(SignInWithPassword, Served); (SelectActiveEmployee, Refused PGRST116)]
  /\ shown (login healthy "bob@example.com" "bob-secret") w =
       [ConsoleLog "No employee profile found for new user:"].
Proof.
  vm_compute. repeat split.
Qed.

(** *** Refreshing *)

(** A rejected promise, and an error in the reply of the profile request, is
    the error a run of [refreshUser] throws, and a run that throws leaves the
    store as it was. *)
Lemma refreshUser_propagates (net : Net) (w : World) :
  forall q e,
    (q <> GetSession /\ In (q, Refused e) (issued (refreshUser net) w))
    \/ In (q, Raised e) (issued (refreshUser net) w) ->
    fst (refreshUser net w) = Thrown e
    /\ store (snd (refreshUser net w)) = store w.
Proof.
  unfold refreshUser, session_user. run; tidy_logs; cbn;
    intros q e [[Hq H]|H];
    repeat (destruct H as [H|H]; try discriminate H; try contradiction H);
    injection H as <- <-; try (now contradiction Hq); split; reflexivity.
Qed.

(** An error in the reply of [getSession] is not read: the run goes on as if
    there were no session. *)
Lemma refreshUser_swallows (net : Net) (w : World) :
  forall e,
    In (GetSession, Refused e) (issued (refreshUser net) w) ->
    fst (refreshUser net w) = Returned tt
    /\ user (store (snd (refreshUser net w))) = None
    /\ session (store (snd (refreshUser net w))) = None.
Proof.
  unfold refreshUser, session_user. run; tidy_logs; cbn;
    intros e H;
    repeat (destruct H as [H|H]; try discriminate H; try contradiction H);
    repeat split.
Qed.

Lemma refreshUser_first_request (net : Net) (w : World) :
  exists x rest, issued (refreshUser net) w = (GetSession, x) :: rest.
Proof.
  unfold refreshUser, session_user. run; tidy_logs; eauto.
Qed.

Lemma refreshUser_no_session (net : Net) (w : World) :
  raises net GetSession = None ->
  session_read net (backend w) = None ->
  fst (refreshUser net w) = Returned tt
  /\ user (store (snd (refreshUser net w))) = None
  /\ session (store (snd (refreshUser net w))) = None
  /\ exists x, issued (refreshUser net) w = [(GetSession, x)].
Proof.
  intros Hraise Hnone.
  unfold refreshUser, session_user, session_read in *. unfold_async. cbn.
  rewrite Hraise. destruct (rejects net GetSession); cbn.
  - tidy_logs. repeat split. eauto.
  - rewrite Hnone. cbn. tidy_logs. repeat split. eauto.
Qed.

(** C3. [refreshUser] first asks the backend for the current session. When
    the reply holds no session -- the backend has none, or the reply carries
    an error, which is not read -- it returns normally with the stored
    profile and the stored session both cleared, whatever they were. A
    rejected promise, and an error in the reply of the profile request, is
    the error [refreshUser] throws to its caller; an error in the reply of
    [getSession] is never thrown. *)
Theorem refreshUser_clears_or_propagates (net : Net) (w : World) :
  let r := refreshUser net w in
  (exists x rest, issued (refreshUser net) w = (GetSession, x) :: rest)
  /\ (raises net GetSession = None ->
      session_read net (backend w) = None ->
      fst r = Returned tt
      /\ user (store (snd r)) = None
      /\ session (store (snd r)) = None)
  /\ (forall q e,
        (q <> GetSession /\ In (q, Refused e) (issued (refreshUser net) w))
        \/ In (q, Raised e) (issued (refreshUser net) w) ->
        fst r = Thrown e)
  /\ (forall e,
        In (GetSession, Refused e) (issued (refreshUser net) w) ->
        fst r = Returned tt
        /\ user (store (snd r)) = None
        /\ session (store (snd r)) = None).
Proof.
  intros r. subst r. split; [apply refreshUser_first_request|].
  split; [|split].
  - intros Hraise Hnone.
    destruct (refreshUser_no_session net w Hraise Hnone) as (A & B & C & _).
    repeat split; assumption.
  - intros q e H. apply (refreshUser_propagates net w q e H).
  - apply refreshUser_swallows.
Qed.

Lemma refreshUser_clears_or_propagates_witness :
  let w := Demo.holding Demo.alice Demo.alice_row Demo.site in
  let v := boot (Demo.with_session Demo.carol Demo.site) in
  user (store w) = Some Demo.alice_row
  /\ fst (refreshUser healthy w) = Returned tt
  /\ user (store (snd (refreshUser healthy w))) = None
  /\ session (store (snd (refreshUser healthy w))) = None
  /\ fst (refreshUser (Demo.dropping GetSession) w) = Thrown Demo.network_error
  /\ fst (refreshUser (Demo.refusing SelectEmployee) v) = Thrown Demo.network_error
  /\ fst (refreshUser healthy v) = Thrown PGRST116.
Proof.
  intros w v.
  destruct (refreshUser_clears_or_propagates healthy w) as (_ & H & _).
  destruct (H eq_refl eq_refl) as (A & B & C).
  destruct (refreshUser_clears_or_propagates (Demo.dropping GetSession) w)
    as (_ & _ & P & _).
  destruct (refreshUser_clears_or_propagates (Demo.refusing SelectEmployee) v)
    as (_ & _ & Q & _).
  destruct (refreshUser_clears_or_propagates healthy v) as (_ & _ & R & _).
  refine (conj eq_refl (conj A (conj B (conj C (conj _ (conj _ _)))))).
  - apply (P GetSession Demo.network_error). right. vm_compute. left. reflexivity.
  - apply (Q SelectEmployee Demo.network_error). left.
    split; [discriminate|]. vm_compute. right. left. reflexivity.
  - apply (R SelectEmployee PGRST116). left.
    split; [discriminate|]. vm_compute. right. left. reflexivity.
Defined.

(** The backend holds the session of alice and the provider her profile; the
    reply of [getSession] carries an error. [refreshUser] meets that error,
    as its trace shows, and resolves: nothing is thrown to the caller, and
    the stored session and profile are cleared although the backend still
    holds the session. *)
Lemma refreshUser_swallows_getSession_error :
  let w := Demo.holding Demo.alice Demo.alice_row
             (Demo.with_session Demo.alice Demo.site) in
  let r := refreshUser (Demo.refusing GetSession) w in
  issued (refreshUser (Demo.refusing GetSession)) w
    = [(GetSession, Refused Demo.network_error)]
  /\ fst r = Returned tt
  /\ fst r <> Thrown Demo.network_error
  /\ user (store (snd r)) = None
  /\ session (store (snd r)) = None
  /\ auth_session (backend (snd r)) = Some (grant Demo.alice).
Proof.
  vm_compute. repeat split; discriminate.
Qed.

(** With a session and a single row for its user, [refreshUser] stores that
    row whatever its activation flag: its query has no filter on
    [is_active]. *)
Lemma refreshUser_stores_row (net : Net) (w : World) (s : Session.t) (p : UserProfile.t) :
  raises net GetSession = None ->
  rejects net GetSession = None ->
  raises net SelectEmployee = None ->
  rejects net SelectEmployee = None ->
  auth_session (backend w) = Some s ->
  profiles_of (User.id (Session.user s)) (backend w) = [p] ->
  fst (refreshUser net w) = Returned tt
  /\ user (store (snd (refreshUser net w))) = Some p
  /\ session (store (snd (refreshUser net w))) = Some s.
Proof.
  intros Hg Hg' Hr Hj Hs Hp.
  unfold refreshUser, session_user. unfold_async. unfold serve_selectEmployee.
  cbn. rewrite Hg, Hg', Hs. cbn. rewrite Hr, Hj, Hp. cbn. repeat split.
Qed.

(** With a session, read by [getSession], and no row for its user, every
    run of [refreshUser] throws and leaves the store alone. *)
Lemma refreshUser_no_row (net : Net) (w : World) (s : Session.t) :
  rejects net GetSession = None ->
  auth_session (backend w) = Some s ->
  profiles_of (User.id (Session.user s)) (backend w) = [] ->
  (exists e, fst (refreshUser net w) = Thrown e)
  /\ store (snd (refreshUser net w)) = store w
  /\ (raises net GetSession = None ->
      raises net SelectEmployee = None ->
      rejects net SelectEmployee = None ->
      fst (refreshUser net w) = Thrown PGRST116).
Proof.
  intros Hg Hs Hp.
  unfold refreshUser, session_user. unfold_async. unfold serve_selectEmployee.
  cbn. rewrite Hg, Hs.
  destruct (raises net GetSession); cbn;
    [split; [eauto | split; [reflexivity | discriminate]] |].
  rewrite Hp.
  destruct (raises net SelectEmployee); cbn;
    [split; [eauto | split; [reflexivity | intros _; discriminate]] |].
  destruct (rejects net SelectEmployee); cbn;
    split; eauto; split; try reflexivity; intros _ _; try discriminate;
    reflexivity.
Qed.

(** C10. In a state where the backend holds a session and the [employees]
    table has no row for its user:
    - [refreshUser], unless the reply of [getSession] carries an error so
      that no session is read, throws and the store is left exactly as it
      was (on a healthy network the error is PGRST116, "no rows");
    - [initializeAuth], once the session is read, returns normally with the
      session stored and the profile empty;
    - [login] with accepted credentials of that user returns true.
    And the query of [refreshUser] has no filter on [is_active]: when the
    single row of the user is deactivated, [refreshUser] stores it, while
    [fetchUserProfile], the fetch of [login] and [initializeAuth], yields
    nothing for the same user. *)
Theorem refreshUser_without_profile_throws :
  (forall (net : Net) (w : World) (s : Session.t),
      auth_session (backend w) = Some s ->
      (forall p, In p (employees (backend w)) ->
                 UserProfile.user_id p <> User.id (Session.user s)) ->
      (rejects net GetSession = None ->
       (exists e, fst (refreshUser net w) = Thrown e)
       /\ store (snd (refreshUser net w)) = store w)
      /\ (raises net GetSession = None ->
          rejects net GetSession = None ->
          raises net SelectEmployee = None ->
          rejects net SelectEmployee = None ->
          fst (refreshUser net w) = Thrown PGRST116)
      /\ (raises net GetSession = None ->
          rejects net GetSession = None ->
          fst (initializeAuth net w) = Returned tt
          /\ session (store (snd (initializeAuth net w))) = Some s
          /\ user (store (snd (initializeAuth net w))) = None)
      /\ (forall email password a,
            raises net SignInWithPassword = None ->
            rejects net SignInWithPassword = None ->
            find (credentials_match (Js.trim (Js.toLowerCase email)) password)
                 (accounts (backend w)) = Some a ->
            Session.user (grant a) = Session.user s ->
            fst (login net email password w) = Returned true
            /\ user (store (snd (login net email password w))) = user (store w)))
  /\ (forall (net : Net) (w : World) (s : Session.t) (p : UserProfile.t),
        raises net GetSession = None ->
        rejects net GetSession = None ->
        raises net SelectEmployee = None ->
        rejects net SelectEmployee = None ->
        auth_session (backend w) = Some s ->
        profiles_of (User.id (Session.user s)) (backend w) = [p] ->
        UserProfile.is_active p = false ->
        user (store (snd (refreshUser net w))) = Some p
        /\ session (store (snd (refreshUser net w))) = Some s
        /\ fst (fetchUserProfile net (User.id (Session.user s)) w) = Returned None).
Proof.
  split.
  - intros net w s Hs Hnone.
    pose proof (profiles_of_nil _ _ Hnone) as Hp.
    refine (conj _ (conj _ (conj _ _))).
    + intros Hg'.
      destruct (refreshUser_no_row net w s Hg' Hs Hp) as (A & B & _).
      exact (conj A B).
    + intros Hg Hg'.
      destruct (refreshUser_no_row net w s Hg' Hs Hp) as (_ & _ & C).
      exact (C Hg).
    + intros Hg Hg'. destruct (initializeAuth_run net w) as (R & _ & E).
      rewrite E. unfold mounted, session_read. rewrite Hg, Hg', Hs. cbn.
      repeat split; [exact R|]. now apply fetched_no_profile.
    + intros email password a Hraise Hreject Hfind Hsame.
      destruct (login_granted net email password w a Hraise Hreject Hfind)
        as (R & _ & E & _).
      split; [exact R|]. rewrite E, Hsame.
      now rewrite (fetched_no_profile net _ _ Hp).
  - intros net w s p Hg Hg' Hr Hj Hs Hp Hoff.
    destruct (refreshUser_stores_row net w s p Hg Hg' Hr Hj Hs Hp) as (_ & A & B).
    repeat split; try assumption.
    destruct (fetchUserProfile_run net (User.id (Session.user s)) w)
      as (w' & -> & _).
    cbn. f_equal. apply fetched_deactivated.
    rewrite Hp. intros q [<-|[]]. exact Hoff.
Qed.

Lemma refreshUser_without_profile_throws_witness :
  let w := boot (Demo.with_session Demo.carol Demo.site) in
  let v := boot (Demo.with_session Demo.bob Demo.site) in
  fst (refreshUser healthy w) = Thrown PGRST116
  /\ store (snd (refreshUser healthy w)) = store w
  /\ session (store (snd (initializeAuth healthy w))) = Some (grant Demo.carol)
  /\ user (store (snd (initializeAuth healthy w))) = None
  /\ user (store (snd (refreshUser healthy v))) = Some Demo.bob_row
  /\ fst (fetchUserProfile healthy "user-2" v) = Returned None.
Proof.
  intros w v.
  destruct refreshUser_without_profile_throws as (H1 & H2).
  destruct (H1 healthy w (grant Demo.carol) eq_refl) as (B & C & D & _).
  { intros p [<-|[<-|[]]]; vm_compute; discriminate. }
  destruct (B eq_refl) as (_ & B').
  destruct (D eq_refl eq_refl) as (_ & D1 & D2).
  destruct (H2 healthy v (grant Demo.bob) Demo.bob_row
              eq_refl eq_refl eq_refl eq_refl eq_refl eq_refl eq_refl)
    as (E & _ & F).
  exact (conj (C eq_refl eq_refl eq_refl eq_refl)
           (conj B' (conj D1 (conj D2 (conj E F))))).
Defined.

(** *** Logging out *)

(** C4, counterexample. alice is signed in and the sign-out request is
    dropped by the network: [logout] catches the exception, shows "Logout
    Failed" and returns with the session and the profile still in the store;
    [getSession] afterwards still yields the session. *)
Lemma logout_keeps_state_when_signOut_throws :
  let w := Demo.holding Demo.alice Demo.alice_row
             (Demo.with_session Demo.alice Demo.site) in
  let r := logout (Demo.dropping SignOut) w in
  fst r = Returned tt
  /\ session (store (snd r)) = Some (grant Demo.alice)
  /\ user (store (snd r)) = Some Demo.alice_row
  /\ session (store (snd r)) <> None
  /\ user (store (snd r)) <> None
  /\ fst (auth_getSession healthy (snd r)) = Returned (Some (grant Demo.alice))
  /\ fst (auth_getSession healthy (snd r)) <> Returned None
  /\ issued (logout (Demo.dropping SignOut)) w = [(SignOut, Raised Demo.network_error)]
  /\ shown (logout (Demo.dropping SignOut)) w =
       [Alert "Logout Failed" "Network request failed"].
Proof.
  vm_compute. repeat split; discriminate.
Qed.

(** C4, amended. From every prior state [logout] returns after one
    [signOut] request. If that request does not throw, the stored session and
    the stored profile are cleared, whatever the reply; if the backend served
    it, the backend holds no session and a following [getSession] yields
    none. If the request throws, the store and the backend are left as they
    were and a "Logout Failed" alert is shown. *)
Theorem logout_clears_unless_signOut_throws (net : Net) (w : World) :
  let r := logout net w in
  fst r = Returned tt
  /\ (exists x, issued (logout net) w = [(SignOut, x)])
  /\ (raises net SignOut = None ->
      session (store (snd r)) = None /\ user (store (snd r)) = None)
  /\ (raises net SignOut = None ->
      rejects net SignOut = None ->
      auth_session (backend (snd r)) = None
      /\ forall net', raises net' GetSession = None ->
                      fst (auth_getSession net' (snd r)) = Returned None)
  /\ (forall e, raises net SignOut = Some e ->
                store (snd r) = store w
                /\ backend (snd r) = backend w
                /\ shown (logout net) w = [Alert "Logout Failed" (ApiError.message e)]).
Proof.
  unfold logout. unfold_async. cbn.
  destruct (raises net SignOut) as [e|]; cbn.
  - tidy_logs.
    refine (conj eq_refl (conj _ (conj _ (conj _ _)))); try discriminate; eauto.
    intros ? [= <-]. repeat split.
  - destruct (rejects net SignOut) as [e|]; cbn; tidy_logs;
      (refine (conj eq_refl (conj _ (conj _ (conj _ _))));
       [eauto | split; reflexivity | try discriminate | discriminate]).
    intros _ _. split; [reflexivity|]. intros net' ->.
    now destruct (rejects net' GetSession).
Qed.

Lemma logout_clears_unless_signOut_throws_witness :
  let w := Demo.holding Demo.alice Demo.alice_row
             (Demo.with_session Demo.alice Demo.site) in
  let r := logout healthy w in
  session (store w) = Some (grant Demo.alice)
  /\ session (store (snd r)) = None
  /\ user (store (snd r)) = None
  /\ fst (auth_getSession healthy (snd r)) = Returned None.
Proof.
  intros w r.
  destruct (logout_clears_unless_signOut_throws healthy w) as (_ & _ & A & B & _).
  destruct (A eq_refl) as (A1 & A2).
  destruct (B eq_refl eq_refl) as (_ & B2).
  exact (conj eq_refl (conj A1 (conj A2 (B2 healthy eq_refl)))).
Defined.

(** *** Completing the profile *)

(** A name that no department carries resolves to no identifier. *)
Lemma unknown_department (name : string) (b : Backend) :
  (forall d, In d (Supabase.departments b) -> Department.name d <> name) ->
  serve_selectDepartmentId name b = inr PGRST116.
Proof.
  unfold serve_selectDepartmentId. intros H.
  replace (filter (fun d => (Department.name d =? name)%string)
             (Supabase.departments b)) with (@nil Department.t); [reflexivity|].
  induction (Supabase.departments b) as [|d l IH]; [reflexivity|].
  simpl. destruct (String.eqb_spec (Department.name d) name) as [E|_].
  - exfalso. apply (H d); [left; reflexivity | exact E].
  - apply IH. intros d' Hd'. apply H. right. exact Hd'.
Qed.

(** C6. When no department of the reference table carries the given name,
    [completeEmployeeProfile] returns false; the insert is never requested,
    and both the backend (so the [employees] table) and the store are left as
    they were. This holds whatever the network does. *)
Theorem completeEmployeeProfile_unknown_department
    (net : Net) (userId fullName employeeNumber departmentName : string)
    (phoneNumber companyName position email : option string) (w : World) :
  (forall d, In d (Supabase.departments (backend w)) ->
             Department.name d <> departmentName) ->
  let run := completeEmployeeProfile net userId fullName employeeNumber
               departmentName phoneNumber companyName position email in
  fst (run w) = Returned false
  /\ (forall x, ~ In (InsertEmployee, x) (issued run w))
  /\ backend (snd (run w)) = backend w
  /\ employees (backend (snd (run w))) = employees (backend w)
  /\ store (snd (run w)) = store w.
Proof.
  intros Hunknown run. subst run.
  unfold completeEmployeeProfile. unfold_async. cbn.
  rewrite (unknown_department _ _ Hunknown).
  destruct (raises net SelectDepartmentId); cbn;
    [| destruct (rejects net SelectDepartmentId); cbn];
    tidy_logs; repeat split; try (now destruct w as [[] ? ? ?]);
    intros x [H|[]]; discriminate.
Qed.

Lemma completeEmployeeProfile_unknown_department_witness :
  let w := boot (Demo.with_session Demo.carol Demo.site) in
  let run := completeEmployeeProfile healthy "user-3" "Carol" "E-003"
               "Logistics" None None None (Some "carol@example.com") in
  fst (run w) = Returned false
  /\ employees (backend (snd (run w))) = employees Demo.site.
Proof.
  intros w run.
  destruct (completeEmployeeProfile_unknown_department healthy "user-3" "Carol"
              "E-003" "Logistics" None None None (Some "carol@example.com") w)
    as (A & _ & _ & B & _).
  - intros d [<-|[<-|[]]]; vm_compute; discriminate.
  - exact (conj A B).
Defined.

(** C7, counterexample. carol completes her profile while the backend refuses
    the reload: the row is inserted and [completeEmployeeProfile] returns
    true, yet no profile is stored. *)
Lemma completeEmployeeProfile_succeeds_without_storing :
  let w := boot (Demo.with_session Demo.carol Demo.site) in
  let run := completeEmployeeProfile (Demo.refusing SelectActiveEmployee)
               "user-3" "Carol" "E-003" "Warehouse"
               None None None (Some "carol@example.com") in
  fst (run w) = Returned true
  /\ user (store (snd (run w))) = None
  /\ length (employees (backend (snd (run w)))) = 3
  /\ issued run w =
       [(SelectDepartmentId, Served); (InsertEmployee, Served);
        (SelectActiveEmployee, Refused Demo.network_error)].
Proof.
  vm_compute. repeat split.
Qed.

(** The row just inserted is what a healthy reload finds, when the user had
    no active row before. *)
Lemma fetched_after_insert (net : Net) (v : EmployeeInsert) (b : Backend) :
  raises net SelectActiveEmployee = None ->
  rejects net SelectActiveEmployee = None ->
  ins_is_active v = true ->
  active_profiles_of (ins_user_id v) b = [] ->
  fetched net (ins_user_id v) (serve_insertEmployee v b) = Some (new_row v b).
Proof.
  intros Hraise Hreject Hactive Hnone.
  unfold fetched, serve_selectActiveEmployee. rewrite Hraise, Hreject.
  replace (active_profiles_of (ins_user_id v) (serve_insertEmployee v b))
    with [new_row v b]; [reflexivity|].
  unfold active_profiles_of, profiles_of in *. cbn.
  rewrite !filter_app, Hnone. cbn.
  rewrite String.eqb_refl. cbn. now rewrite Hactive.
Qed.

(** C7, amended. Whenever [completeEmployeeProfile] returns true, the
    department name was resolved, the row was inserted and a reload was
    requested. The stored profile is the reloaded one when the reload yields
    a profile, and is left as it was otherwise. When the reload is answered
    and the user had no active row before, the stored profile is the row
    just created. *)
Theorem completeEmployeeProfile_success
    (net : Net) (userId fullName employeeNumber departmentName : string)
    (phoneNumber companyName position email : option string) (w : World) :
  let run := completeEmployeeProfile net userId fullName employeeNumber
               departmentName phoneNumber companyName position email in
  fst (run w) = Returned true ->
  exists departmentId,
    let v := profile_values userId fullName employeeNumber departmentId
               departmentName phoneNumber companyName position email in
    serve_selectDepartmentId departmentName (backend w) = inl departmentId
    /\ backend (snd (run w)) = serve_insertEmployee v (backend w)
    /\ (exists x, issued run w =
                  [(SelectDepartmentId, Served); (InsertEmployee, Served);
                   (SelectActiveEmployee, x)])
    /\ user (store (snd (run w))) =
         match fetched net userId (serve_insertEmployee v (backend w)) with
         | Some p => Some p
         | None => user (store w)
         end
    /\ (raises net SelectActiveEmployee = None ->
        rejects net SelectActiveEmployee = None ->
        active_profiles_of userId (backend w) = [] ->
        user (store (snd (run w))) = Some (new_row v (backend w))).
Proof.
  intros run. subst run.
  unfold completeEmployeeProfile. unfold_async. cbn.
  destruct (raises net SelectDepartmentId); cbn; [discriminate|].
  destruct (rejects net SelectDepartmentId); cbn; [discriminate|].
  destruct (serve_selectDepartmentId departmentName (backend w))
    as [departmentId|]; cbn; [|discriminate].
  destruct (raises net InsertEmployee); cbn; [discriminate|].
  destruct (rejects net InsertEmployee); cbn; [discriminate|].
  match goal with
  | |- context [fetchUserProfile net ?u ?v] =>
      destruct (fetchUserProfile_run net u v)
        as (w2 & -> & Hs2 & Hb2 & [x Ht2] & _)
  end.
  cbn in Hs2, Hb2, Ht2 |- *.
  intros Hret. exists departmentId. cbv zeta.
  pose (v := profile_values userId fullName employeeNumber departmentId
               departmentName phoneNumber companyName position email).
  fold v.
  change (backend w2 = serve_insertEmployee v (backend w)) in Hb2.
  match goal with
  | |- context [fetched net userId ?b] =>
      change b with (serve_insertEmployee v (backend w)) in *
  end.
  clear Hret.
  destruct (fetched net userId (serve_insertEmployee v (backend w)))
    as [p|] eqn:Hf; cbn; rewrite ?Hb2, ?Ht2, ?Hs2; tidy_logs.
  all: refine (conj eq_refl (conj eq_refl
                 (conj (ex_intro _ x eq_refl) (conj eq_refl _)))).
  all: intros Hraise Hreject Hnone.
  all: assert (Hnew : fetched net userId (serve_insertEmployee v (backend w))
                      = Some (new_row v (backend w)))
         by exact (fetched_after_insert net v (backend w)
                     Hraise Hreject eq_refl Hnone).
  all: congruence.
Qed.

Lemma completeEmployeeProfile_success_witness :
  let w := boot (Demo.with_session Demo.carol Demo.site) in
  let run := completeEmployeeProfile healthy "user-3" "Carol" "E-003"
               "Warehouse" None (Some "") None (Some "carol@example.com") in
  fst (run w) = Returned true
  /\ user (store (snd (run w))) =
       Some (new_row (profile_values "user-3" "Carol" "E-003" "dep-2" "Warehouse"
                        None (Some "") None (Some "carol@example.com"))
               (backend w)).
Proof.
  intros w run.
  assert (Hrun : fst (run w) = Returned true) by (vm_compute; reflexivity).
  destruct (completeEmployeeProfile_success healthy "user-3" "Carol" "E-003"
              "Warehouse" None (Some "") None (Some "carol@example.com") w Hrun)
    as (departmentId & Hd & _ & _ & _ & Hnew).
  assert (E : departmentId = "dep-2") by (vm_compute in Hd; congruence).
  subst departmentId.
  exact (conj Hrun (Hnew eq_refl eq_refl eq_refl)).
Defined.

(** *** The activation gate on every path but [refreshUser] *)

Lemma gate_step (net : Net) (w w' : World) :
  kept_or_fetched net w w' ->
  active_only (store w) -> active_only (store w').
Proof.
  unfold active_only. intros [E|[E|(userId & b & p & Hf & E)]] Hw q Hq.
  - apply Hw. now rewrite <- E.
  - rewrite E in Hq. discriminate.
  - rewrite E in Hq. injection Hq as <-.
    apply (fetched_active net userId b p Hf).
Qed.

(** Runs [fetchUserProfile_run] on the fetch in the goal. *)
Ltac fetch_step w2 Hs2 :=
  match goal with
  | |- context [fetchUserProfile ?n ?u ?v] =>
      let Hf := fresh "Hf" in
      let b := eval cbn in (backend v) in
      destruct (fetchUserProfile_run n u v) as (w2 & -> & Hs2 & _);
      cbn in Hs2 |- *;
      destruct (fetched n u b) eqn:Hf; cbn
  end.

Lemma login_origin (net : Net) (email password : string) (w : World) :
  kept_or_fetched net w (snd (login net email password w)).
Proof.
  unfold kept_or_fetched, login. unfold_async. unfold serve_signInWithPassword.
  cbn.
  destruct (raises net SignInWithPassword); cbn; [now left|].
  destruct (rejects net SignInWithPassword); cbn; [now left|].
  destruct (find _ (accounts (backend w))) as [a|]; cbn; [|now left].
  fetch_step w2 Hs2.
  - destruct (fetched_active _ _ _ _ Hf) as (-> & _). cbn.
    right. right. eauto.
  - left. now rewrite Hs2.
Qed.

Lemma initializeAuth_origin (net : Net) (w : World) :
  kept_or_fetched net w (snd (initializeAuth net w)).
Proof.
  unfold kept_or_fetched.
  destruct (initializeAuth_run net w) as (_ & _ & ->). unfold mounted.
  destruct (raises net GetSession); [now left|].
  destruct (session_read net (backend w)) as [s|]; [|now left]. cbn.
  destruct (fetched net (User.id (Session.user s)) (backend w)) eqn:Hf;
    [right; right; eauto | now right; left].
Qed.

Lemma completeEmployeeProfile_origin
    (net : Net) (userId fullName employeeNumber departmentName : string)
    (phoneNumber companyName position email : option string) (w : World) :
  kept_or_fetched net w
    (snd (completeEmployeeProfile net userId fullName employeeNumber
            departmentName phoneNumber companyName position email w)).
Proof.
  unfold kept_or_fetched, completeEmployeeProfile. unfold_async. cbn.
  destruct (raises net SelectDepartmentId); cbn; [now left|].
  destruct (rejects net SelectDepartmentId); cbn; [now left|].
  destruct (serve_selectDepartmentId departmentName (backend w));
    cbn; [|now left].
  destruct (raises net InsertEmployee); cbn; [now left|].
  destruct (rejects net InsertEmployee); cbn; [now left|].
  fetch_step w2 Hs2.
  - right. right. eauto.
  - left. now rewrite Hs2.
Qed.

Lemma onAuthStateChange_origin
    (net : Net) (event : AuthChangeEvent) (newSession : option Session.t) (w : World) :
  kept_or_fetched net w (snd (onAuthStateChange net event newSession w)).
Proof.
  unfold kept_or_fetched, onAuthStateChange, session_user.
  destruct event; unfold_async; cbn; try (now left); try (now right; left).
  - destruct newSession as [s|]; cbn; [|now left].
    fetch_step w2 Hs2; [right; right; eauto | now right; left].
  - destruct newSession; now left.
Qed.

Lemma logout_origin (net : Net) (w : World) :
  kept_or_fetched net w (snd (logout net w)).
Proof.
  unfold kept_or_fetched, logout. unfold_async. cbn.
  destruct (raises net SignOut); cbn; [now left|].
  destruct (rejects net SignOut); cbn; now right; left.
Qed.

(** Every step other than [refreshUser] keeps the gate. *)
Lemma perform_keeps_gate (net : Net) (c : Call) (w : World) :
  is_refresh c = false ->
  active_only (store w) -> active_only (store (perform net c w)).
Proof.
  destruct c; cbn; intros Hc; try discriminate Hc; try (intros H; exact H).
  - apply (gate_step net), initializeAuth_origin.
  - apply (gate_step net), login_origin.
  - apply (gate_step net), logout_origin.
  - apply (gate_step net), completeEmployeeProfile_origin.
  - apply (gate_step net), onAuthStateChange_origin.
Qed.

(** In a history without [refreshUser] the store never holds a deactivated
    profile, whatever the network and the backend do in between. *)
Lemma gate_without_refresh (history : list (Net * Call)) (w : World) :
  Forall (fun step => is_refresh (snd step) = false) history ->
  active_only (store w) ->
  active_only (store (replay history w)).
Proof.
  revert w. induction history as [|[net c] rest IH]; intros w Hh Hw.
  - exact Hw.
  - inversion Hh as [|? ? Hc Hrest]; subst. cbn.
    apply IH; [exact Hrest|]. now apply perform_keeps_gate.
Qed.

Lemma boot_gate (b : Backend) : active_only (store (boot b)).
Proof.
  intros p Hp. discriminate Hp.
Qed.

(** C2. At the failing input: on the demo site alice logs in with her active
    profile, an administrator then deactivates her profile, and the profile
    screen calls [refreshUser]. The state reached holds alice's session
    together with her profile whose [is_active] is false, and the backend
    still holds the session: nothing signed her out. *)
Theorem refreshUser_stores_deactivated_profile :
  let w1 := replay [ (healthy, CallLogin "alice@example.com" "alice-secret") ]
              (boot Demo.site) in
  let w := replay [ (healthy, Outside (Demo.deactivate "user-1" (backend w1)));
                    (healthy, CallRefresh) ] w1 in
  active_only (store w1)
  /\ session (store w) = Some (grant Demo.alice)
  /\ user (store w) = Some (Demo.row "emp-1" "user-1" "Alice" "E-001" false)
  /\ ~ active_only (store w)
  /\ auth_session (backend w) = Some (grant Demo.alice)
  /\ trace w = [ (SignInWithPassword, Served);
                 (SelectActiveEmployee, Served);
                 (GetSession, Served);
                 (SelectEmployee, Served) ].
Proof.
  cbv zeta.
  refine (conj _ (conj _ (conj _ (conj _ (conj _ _))))).
  - apply gate_without_refresh; [|apply boot_gate].
    repeat constructor.
  - vm_compute; reflexivity.
  - vm_compute; reflexivity.
  - intros H.
    specialize (H (Demo.row "emp-1" "user-1" "Alice" "E-001" false)).
    assert (E : UserProfile.is_active
                  (Demo.row "emp-1" "user-1" "Alice" "E-001" false) = true)
      by (apply H; vm_compute; reflexivity).
    discriminate E.
  - vm_compute; reflexivity.
  - vm_compute; reflexivity.
Qed.

(** The same from a cold start: bob's profile is deactivated from the
    beginning; he logs in (which succeeds) and [refreshUser] then stores his
    deactivated profile next to his session. *)
Lemma refreshUser_after_login_of_deactivated :
  let w := replay [ (healthy, CallLogin "bob@example.com" "bob-secret");
                    (healthy, CallRefresh) ] (boot Demo.site) in
  session (store w) = Some (grant Demo.bob)
  /\ user (store w) = Some Demo.bob_row
  /\ UserProfile.is_active Demo.bob_row = false.
Proof.
  vm_compute. repeat split.
Qed.

(** *** The session-change subscription *)

(** C8. When the subscription delivers TOKEN_REFRESHED with a new session, the
    handler returns with the stored session equal to the new session; the
    stored profile, the other cells of the store and the backend are as before,
    and no request is issued. *)
Theorem token_refreshed_updates_session_only
    (net : Net) (newSession : Session.t) (w : World) :
  let w' := snd (onAuthStateChange net TOKEN_REFRESHED (Some newSession) w) in
  fst (onAuthStateChange net TOKEN_REFRESHED (Some newSession) w) = Returned tt
  /\ session (store w') = Some newSession
  /\ user (store w') = user (store w)
  /\ departments (store w') = departments (store w)
  /\ isLoading (store w') = isLoading (store w)
  /\ isLoggingIn (store w') = isLoggingIn (store w)
  /\ backend w' = backend w
  /\ issued (onAuthStateChange net TOKEN_REFRESHED (Some newSession)) w = [].
Proof.
  unfold onAuthStateChange. unfold_async. simpl.
  repeat split. apply skipn_length_self.
Qed.

(** *** More on logging in *)

(** Normalising an identifier twice is normalising it once. *)
Lemma lower_lower (c : ascii) : Js.lower (Js.lower c) = Js.lower c.
Proof.
  destruct c as [[] [] [] [] [] [] [] []]; reflexivity.
Qed.

Lemma is_space_lower (c : ascii) : Js.is_space (Js.lower c) = Js.is_space c.
Proof.
  destruct c as [[] [] [] [] [] [] [] []]; reflexivity.
Qed.

Lemma toLowerCase_idempotent (s : string) :
  Js.toLowerCase (Js.toLowerCase s) = Js.toLowerCase s.
Proof.
  induction s as [|c s IH]; simpl; [reflexivity|].
  now rewrite lower_lower, IH.
Qed.

Lemma trimStart_toLowerCase (s : string) :
  Js.trimStart (Js.toLowerCase s) = Js.toLowerCase (Js.trimStart s).
Proof.
  induction s as [|c s IH]; simpl; [reflexivity|].
  rewrite is_space_lower. now destruct (Js.is_space c).
Qed.

Lemma trimEnd_toLowerCase (s : string) :
  Js.trimEnd (Js.toLowerCase s) = Js.toLowerCase (Js.trimEnd s).
Proof.
  induction s as [|c s IH]; simpl; [reflexivity|].
  rewrite IH, is_space_lower.
  destruct (Js.trimEnd s); simpl; [now destruct (Js.is_space c) | reflexivity].
Qed.

Lemma trimEnd_idempotent (s : string) : Js.trimEnd (Js.trimEnd s) = Js.trimEnd s.
Proof.
  induction s as [|c s IH]; simpl; [reflexivity|].
  destruct (Js.trimEnd s) as [|d t] eqn:E.
  - destruct (Js.is_space c) eqn:Hc; simpl; [reflexivity | now rewrite Hc].
  - simpl in IH |- *. now rewrite IH.
Qed.

Lemma trimStart_starts_visible (s : string) : starts_visible (Js.trimStart s).
Proof.
  induction s as [|c s IH]; simpl; [exact I|].
  destruct (Js.is_space c) eqn:Hc; [exact IH | exact Hc].
Qed.

Lemma trimStart_fixes (s : string) : starts_visible s -> Js.trimStart s = s.
Proof.
  destruct s as [|c s]; simpl; [reflexivity | now intros ->].
Qed.

Lemma trimEnd_starts_visible (s : string) :
  starts_visible s -> starts_visible (Js.trimEnd s).
Proof.
  destruct s as [|c s]; simpl; [intros _; exact I|].
  intros Hc. destruct (Js.trimEnd s); simpl; [now rewrite Hc | exact Hc].
Qed.

Lemma trim_idempotent (s : string) : Js.trim (Js.trim s) = Js.trim s.
Proof.
  unfold Js.trim.
  rewrite (trimStart_fixes (Js.trimEnd (Js.trimStart s))).
  - apply trimEnd_idempotent.
  - apply trimEnd_starts_visible, trimStart_starts_visible.
Qed.

Lemma normalize_idempotent (s : string) :
  Js.trim (Js.toLowerCase (Js.trim (Js.toLowerCase s))) =
  Js.trim (Js.toLowerCase s).
Proof.
  unfold Js.trim at 2.
  rewrite <- trimEnd_toLowerCase, <- trimStart_toLowerCase, toLowerCase_idempotent.
  apply trim_idempotent.
Qed.

(** X1. [login] reads its identifier only through [toLowerCase().trim()]:
    passing the identifier already in that form, or in any other spelling
    with the same normal form, runs exactly the same. *)
Theorem login_identifier_normal_form
    (net : Net) (email email' password : string) (w : World) :
  Js.trim (Js.toLowerCase email') = Js.trim (Js.toLowerCase email) ->
  login net email' password w = login net email password w
  /\ login net (Js.trim (Js.toLowerCase email)) password w
     = login net email password w.
Proof.
  intros E. unfold login. rewrite E, normalize_idempotent. split; reflexivity.
Qed.

Lemma login_identifier_normal_form_witness :
  login healthy "  Alice@Example.COM " "alice-secret" (boot Demo.site)
  = login healthy "alice@example.com" "alice-secret" (boot Demo.site).
Proof.
  apply (login_identifier_normal_form healthy
           "alice@example.com" "  Alice@Example.COM " "alice-secret").
  reflexivity.
Defined.

(** Every run of [login] returns, with the flags settled. *)
Lemma login_returns (net : Net) (email password : string) (w : World) :
  (exists ok, fst (login net email password w) = Returned ok)
  /\ isLoggingIn (store (snd (login net email password w))) = false
  /\ isLoading (store (snd (login net email password w))) = isLoading (store w)
  /\ departments (store (snd (login net email password w))) = departments (store w).
Proof.
  unfold login. unfold_async. unfold serve_signInWithPassword. cbn.
  destruct (raises net SignInWithPassword); cbn; [now eauto|].
  destruct (rejects net SignInWithPassword); cbn; [now eauto|].
  destruct (find _ (accounts (backend w))) as [a|]; cbn; [|now eauto].
  fetch_step w2 Hs2.
  - destruct (negb (UserProfile.is_active t)); unfold_async; cbn;
      [destruct (raises net SignOut); cbn;
       [|destruct (rejects net SignOut); cbn] |];
      rewrite ?Hs2; cbn; now eauto.
  - rewrite Hs2. cbn. now eauto.
Qed.

(** X2. [login] never throws and always leaves [isLoggingIn] false, whatever
    the credentials, the backend and the network: every exception is caught
    and turned into [false], and the flag is reset in [finally]. The loading
    flag and the department list are not touched. *)
Theorem login_never_throws (net : Net) (email password : string) (w : World) :
  (exists ok, fst (login net email password w) = Returned ok)
  /\ isLoggingIn (store (snd (login net email password w))) = false
  /\ isLoading (store (snd (login net email password w))) = isLoading (store w)
  /\ departments (store (snd (login net email password w))) = departments (store w).
Proof.
  exact (login_returns net email password w).
Qed.

(** X3. When the credential exchange does not succeed -- the request throws,
    the reply carries an error, or no account matches -- [login] returns
    false after that single request, shows "Login Failed" with the error's
    message, and leaves the stored session, the stored profile and the
    backend as they were. *)
Theorem login_refused
    (net : Net) (email password : string) (w : World) (e : ApiError.t) :
  raises net SignInWithPassword = Some e
  \/ (raises net SignInWithPassword = None
      /\ rejects net SignInWithPassword = Some e)
  \/ (raises net SignInWithPassword = None
      /\ rejects net SignInWithPassword = None
      /\ find (credentials_match (Js.trim (Js.toLowerCase email)) password)
              (accounts (backend w)) = None
      /\ e = invalid_credentials) ->
  let r := login net email password w in
  fst r = Returned false
  /\ session (store (snd r)) = session (store w)
  /\ user (store (snd r)) = user (store w)
  /\ backend (snd r) = backend w
  /\ shown (login net email password) w = [Alert "Login Failed" (ApiError.message e)]
  /\ (exists x, issued (login net email password) w = [(SignInWithPassword, x)]).
Proof.
  intros H r. subst r.
  unfold login. unfold_async. unfold serve_signInWithPassword. cbn.
  destruct H as [Hr|[(Hr & Hj)|(Hr & Hj & Hf & ->)]];
    rewrite Hr; cbn; try rewrite Hj; cbn; try rewrite Hf; cbn;
    tidy_logs; repeat split; eauto.
Qed.

Lemma login_refused_witness :
  let r := login healthy "alice@example.com" "wrong" (boot Demo.site) in
  fst r = Returned false
  /\ session (store (snd r)) = None
  /\ shown (login healthy "alice@example.com" "wrong") (boot Demo.site)
     = [Alert "Login Failed" "Invalid login credentials"].
Proof.
  intros r.
  destruct (login_refused healthy "alice@example.com" "wrong" (boot Demo.site)
              invalid_credentials) as (A & B & _ & _ & C & _).
  - right. right. repeat split; reflexivity.
  - exact (conj A (conj B C)).
Defined.

(** X4. For accepted credentials of a user with exactly one active profile,
    and a profile request that is answered, [login] returns true with the
    issued session and that profile both stored; the backend keeps the
    session and no alert is shown. *)
Theorem login_active_profile
    (net : Net) (email password : string) (w : World) (a : Account)
    (p : UserProfile.t) :
  raises net SignInWithPassword = None ->
  rejects net SignInWithPassword = None ->
  raises net SelectActiveEmployee = None ->
  rejects net SelectActiveEmployee = None ->
  find (credentials_match (Js.trim (Js.toLowerCase email)) password)
       (accounts (backend w)) = Some a ->
  active_profiles_of (User.id (Session.user (grant a))) (backend w) = [p] ->
  let r := login net email password w in
  fst r = Returned true
  /\ session (store (snd r)) = Some (grant a)
  /\ user (store (snd r)) = Some p
  /\ auth_session (backend (snd r)) = Some (grant a)
  /\ (forall t m, ~ In (Alert t m) (shown (login net email password) w)).
Proof.
  intros Hraise Hreject Hr Hj Hfind Hp r.
  destruct (login_granted net email password w a Hraise Hreject Hfind)
    as (A & B & C & _ & D & _ & _ & E).
  subst r. repeat split; try assumption.
  rewrite C. unfold fetched, serve_selectActiveEmployee.
  now rewrite Hr, Hj, Hp.
Qed.

Lemma login_active_profile_witness :
  let r := login healthy "alice@example.com" "alice-secret" (boot Demo.site) in
  fst r = Returned true
  /\ session (store (snd r)) = Some (grant Demo.alice)
  /\ user (store (snd r)) = Some Demo.alice_row.
Proof.
  intros r.
  destruct (login_active_profile healthy "alice@example.com" "alice-secret"
              (boot Demo.site) Demo.alice Demo.alice_row
              eq_refl eq_refl eq_refl eq_refl eq_refl eq_refl)
    as (A & B & C & _).
  exact (conj A (conj B C)).
Defined.
(** *** The read-only helpers *)

(** X5. [fetchUserProfile] never throws and changes neither the store nor the
    backend. It resolves to a profile exactly when the request is answered
    and the user has exactly one active row, which is then the result; a
    failing request, no active row, or several of them all give null. *)
Theorem fetchUserProfile_contract (net : Net) (userId : string) (w : World) :
  exists r w',
    fetchUserProfile net userId w = (Returned r, w')
    /\ store w' = store w
    /\ backend w' = backend w
    /\ (forall p, r = Some p ->
          UserProfile.is_active p = true
          /\ UserProfile.user_id p = userId
          /\ active_profiles_of userId (backend w) = [p]
          /\ raises net SelectActiveEmployee = None
          /\ rejects net SelectActiveEmployee = None)
    /\ (forall p, raises net SelectActiveEmployee = None ->
                  rejects net SelectActiveEmployee = None ->
                  active_profiles_of userId (backend w) = [p] ->
                  r = Some p).
Proof.
  destruct (fetchUserProfile_run net userId w) as (w' & E & Hs & Hb & _).
  exists (fetched net userId (backend w)), w'.
  refine (conj E (conj Hs (conj Hb (conj _ _)))).
  - intros p Hp. destruct (fetched_active _ _ _ _ Hp) as (A & B & _).
    unfold fetched, serve_selectActiveEmployee, single in Hp.
    destruct (raises net SelectActiveEmployee); [discriminate|].
    destruct (rejects net SelectActiveEmployee); [discriminate|].
    destruct (active_profiles_of userId (backend w)) as [|q [|? ?]];
      try discriminate.
    injection Hp as ->. repeat split; assumption.
  - intros p Hr Hj Hp. unfold fetched, serve_selectActiveEmployee.
    now rewrite Hr, Hj, Hp.
Qed.

Lemma fetchUserProfile_contract_witness :
  fst (fetchUserProfile healthy "user-1" (boot Demo.site))
  = Returned (Some Demo.alice_row).
Proof.
  destruct (fetchUserProfile_contract healthy "user-1" (boot Demo.site))
    as (r & w' & E & _ & _ & _ & H).
  rewrite E. cbn. f_equal.
  apply (H Demo.alice_row); reflexivity.
Defined.

(** X6. [loadDepartments] never throws and touches nothing but the department
    list. When the request is answered the list is replaced by the reply;
    when it fails the previous list is kept and one error is logged. *)
Theorem loadDepartments_contract (net : Net) (w : World) :
  let r := loadDepartments net w in
  fst r = Returned tt
  /\ backend (snd r) = backend w
  /\ user (store (snd r)) = user (store w)
  /\ session (store (snd r)) = session (store w)
  /\ isLoading (store (snd r)) = isLoading (store w)
  /\ issued (loadDepartments net) w <> []
  /\ (raises net SelectDepartments = None ->
      rejects net SelectDepartments = None ->
      departments (store (snd r)) = serve_selectDepartments (backend w)
      /\ shown (loadDepartments net) w = [])
  /\ (raises net SelectDepartments <> None
      \/ rejects net SelectDepartments <> None ->
      departments (store (snd r)) = departments (store w)
      /\ shown (loadDepartments net) w = [ConsoleError "Failed to load departments:"]).
Proof.
  unfold loadDepartments. unfold_async. cbn.
  destruct (raises net SelectDepartments); cbn;
    [| destruct (rejects net SelectDepartments); cbn];
    tidy_logs;
    (refine (conj eq_refl (conj eq_refl (conj eq_refl (conj eq_refl
               (conj eq_refl (conj _ (conj _ _)))))));
     [ discriminate
     | intros Hr Hj; try discriminate; split; reflexivity
     | intros [Hd|Hd]; try (now contradiction Hd); split; reflexivity ]).
Qed.

Lemma loadDepartments_contract_witness :
  departments (store (snd (loadDepartments healthy (boot Demo.site))))
  = [ {| Department.id := "dep-1"; Department.name := "Construction" |};
      {| Department.id := "dep-2"; Department.name := "Warehouse" |} ]
  /\ departments (store (snd (loadDepartments (Demo.dropping SelectDepartments)
                                (boot Demo.site)))) = [].
Proof.
  destruct (loadDepartments_contract healthy (boot Demo.site))
    as (_ & _ & _ & _ & _ & _ & A & _).
  destruct (loadDepartments_contract (Demo.dropping SelectDepartments)
              (boot Demo.site)) as (_ & _ & _ & _ & _ & _ & _ & B).
  split.
  - apply (A eq_refl eq_refl).
  - apply B. left. discriminate.
Defined.
(** *** More on the session-change subscription *)

(** X7. SIGNED_OUT clears the stored session and the stored profile whatever
    session comes with the event, without any request. Every other event
    than SIGNED_IN with a session, SIGNED_OUT, and TOKEN_REFRESHED with a
    session leaves the whole world as it was. *)
Theorem onAuthStateChange_signed_out_and_ignored
    (net : Net) (event : AuthChangeEvent) (newSession : option Session.t)
    (w : World) :
  (let r := onAuthStateChange net SIGNED_OUT newSession w in
   fst r = Returned tt
   /\ session (store (snd r)) = None
   /\ user (store (snd r)) = None
   /\ backend (snd r) = backend w
   /\ issued (onAuthStateChange net SIGNED_OUT newSession) w = [])
  /\ (match event, newSession with
      | SIGNED_IN, Some _ | SIGNED_OUT, _ | TOKEN_REFRESHED, Some _ => False
      | _, _ => True
      end ->
      onAuthStateChange net event newSession w = (Returned tt, w)).
Proof.
  split.
  - unfold onAuthStateChange. unfold_async. cbn. tidy_logs. repeat split.
  - unfold onAuthStateChange, session_user.
    destruct event, newSession; intros H; try contradiction H; reflexivity.
Qed.

Lemma onAuthStateChange_signed_out_and_ignored_witness :
  let w := Demo.holding Demo.alice Demo.alice_row
             (Demo.with_session Demo.alice Demo.site) in
  onAuthStateChange healthy USER_UPDATED (Some (grant Demo.alice)) w
  = (Returned tt, w).
Proof.
  intros w.
  destruct (onAuthStateChange_signed_out_and_ignored healthy USER_UPDATED
              (Some (grant Demo.alice)) w) as (_ & H).
  apply H. exact I.
Defined.

(** X8. SIGNED_IN with a session overwrites both cells: the stored session is
    the new one and the stored profile is what [fetchUserProfile] resolves
    for its user (none on any failure), whatever was stored before. The
    handler never throws and never writes the backend. When [getSession]
    yields that very session, [initializeAuth] ends with the same session and
    profile. *)
Theorem onAuthStateChange_signed_in
    (net : Net) (s : Session.t) (w : World) :
  let r := onAuthStateChange net SIGNED_IN (Some s) w in
  fst r = Returned tt
  /\ session (store (snd r)) = Some s
  /\ user (store (snd r)) = fetched net (User.id (Session.user s)) (backend w)
  /\ backend (snd r) = backend w
  /\ (raises net GetSession = None ->
      session_read net (backend w) = Some s ->
      session (store (snd (initializeAuth net w))) = session (store (snd r))
      /\ user (store (snd (initializeAuth net w))) = user (store (snd r))).
Proof.
  unfold onAuthStateChange, session_user. unfold_async. cbn.
  match goal with
  | |- context [fetchUserProfile net ?u ?v] =>
      destruct (fetchUserProfile_run net u v) as (w2 & -> & Hs2 & Hb2 & _)
  end.
  assert (Hinit : raises net GetSession = None ->
                  session_read net (backend w) = Some s ->
                  session (store (snd (initializeAuth net w))) = Some s
                  /\ user (store (snd (initializeAuth net w)))
                     = fetched net (User.id (Session.user s)) (backend w)).
  { intros Hg Hs. destruct (initializeAuth_run net w) as (_ & _ & ->).
    unfold mounted. rewrite Hg, Hs. split; reflexivity. }
  destruct (fetched net (User.id (Session.user s)) (backend w)) eqn:Hf; cbn;
    rewrite ?Hb2;
    refine (conj eq_refl (conj eq_refl (conj eq_refl (conj eq_refl Hinit)))).
Qed.

Lemma onAuthStateChange_signed_in_witness :
  let w := Demo.holding Demo.bob Demo.bob_row
             (Demo.with_session Demo.alice Demo.site) in
  let r := onAuthStateChange healthy SIGNED_IN (Some (grant Demo.alice)) w in
  session (store (snd (initializeAuth healthy w))) = session (store (snd r))
  /\ user (store (snd (initializeAuth healthy w))) = user (store (snd r)).
Proof.
  intros w r.
  destruct (onAuthStateChange_signed_in healthy (grant Demo.alice) w)
    as (_ & _ & _ & _ & H).
  exact (H eq_refl eq_refl).
Defined.

(** *** More on refreshing *)

(** X9. With a session read from [getSession], [refreshUser] stores a profile
    only when the user has exactly one row: with no row or with several,
    [.single()] fails, the error PGRST116 is thrown on a healthy network, and
    the store is left as it was. *)
Theorem refreshUser_needs_single_row (net : Net) (w : World) (s : Session.t) :
  raises net GetSession = None ->
  raises net SelectEmployee = None ->
  rejects net SelectEmployee = None ->
  session_read net (backend w) = Some s ->
  length (profiles_of (User.id (Session.user s)) (backend w)) <> 1 ->
  fst (refreshUser net w) = Thrown PGRST116
  /\ store (snd (refreshUser net w)) = store w
  /\ backend (snd (refreshUser net w)) = backend w
  /\ shown (refreshUser net) w = [ConsoleError "Error refreshing user:"].
Proof.
  intros Hg Hr Hj Hs Hlen.
  destruct (session_read_some net (backend w) s Hs) as (Hg' & Hs').
  unfold refreshUser, session_user. unfold_async. unfold serve_selectEmployee.
  cbn. rewrite Hg, Hg', Hs'. cbn. rewrite Hr, Hj.
  destruct (profiles_of (User.id (Session.user s)) (backend w))
    as [|p [|q rest]]; cbn in *; tidy_logs;
    try (now contradiction Hlen); repeat split.
Qed.

Lemma refreshUser_needs_single_row_witness :
  let b := Demo.with_session Demo.alice
             (serve_insertEmployee
                (profile_values "user-1" "Alice" "E-009" "dep-2" "Warehouse"
                   None None None None) Demo.site) in
  length (profiles_of "user-1" b) = 2
  /\ fst (refreshUser healthy (boot b)) = Thrown PGRST116.
Proof.
  intros b. split; [reflexivity|].
  apply (refreshUser_needs_single_row healthy (boot b) (grant Demo.alice));
    try reflexivity.
  vm_compute. discriminate.
Defined.

(** X10. For a user with exactly one row, and that row active, [refreshUser]
    and [initializeAuth] agree on a healthy network: both end with the
    backend's session and that row stored. *)
Theorem refreshUser_agrees_with_initializeAuth
    (net : Net) (w : World) (s : Session.t) (p : UserProfile.t) :
  raises net GetSession = None ->
  raises net SelectEmployee = None ->
  rejects net SelectEmployee = None ->
  raises net SelectActiveEmployee = None ->
  rejects net SelectActiveEmployee = None ->
  session_read net (backend w) = Some s ->
  profiles_of (User.id (Session.user s)) (backend w) = [p] ->
  UserProfile.is_active p = true ->
  session (store (snd (refreshUser net w))) = Some s
  /\ user (store (snd (refreshUser net w))) = Some p
  /\ session (store (snd (initializeAuth net w))) = Some s
  /\ user (store (snd (initializeAuth net w))) = Some p.
Proof.
  intros Hg Hr Hj Har Haj Hs Hp Hact.
  destruct (session_read_some net (backend w) s Hs) as (Hg' & Hs').
  destruct (refreshUser_stores_row net w s p Hg Hg' Hr Hj Hs' Hp) as (_ & A & B).
  destruct (initializeAuth_run net w) as (_ & _ & E).
  rewrite E. unfold mounted. rewrite Hg, Hs. cbn.
  unfold fetched, serve_selectActiveEmployee, active_profiles_of.
  rewrite Har, Haj, Hp. cbn. rewrite Hact. cbn.
  repeat split; assumption.
Qed.

Lemma refreshUser_agrees_with_initializeAuth_witness :
  let w := boot (Demo.with_session Demo.alice Demo.site) in
  user (store (snd (refreshUser healthy w))) = Some Demo.alice_row
  /\ user (store (snd (initializeAuth healthy w))) = Some Demo.alice_row.
Proof.
  intros w.
  destruct (refreshUser_agrees_with_initializeAuth healthy w
              (grant Demo.alice) Demo.alice_row
              eq_refl eq_refl eq_refl eq_refl eq_refl eq_refl eq_refl eq_refl)
    as (_ & A & _ & B).
  exact (conj A B).
Defined.
(** *** More on completing the profile *)

(** The run of [completeEmployeeProfile] once the department is resolved and
    the insert is accepted. *)
Lemma completeEmployeeProfile_served
    (net : Net) (userId fullName employeeNumber departmentName : string)
    (phoneNumber companyName position email : option string) (w : World)
    (departmentId : string) :
  raises net SelectDepartmentId = None ->
  rejects net SelectDepartmentId = None ->
  serve_selectDepartmentId departmentName (backend w) = inl departmentId ->
  raises net InsertEmployee = None ->
  rejects net InsertEmployee = None ->
  let v := profile_values userId fullName employeeNumber departmentId
             departmentName phoneNumber companyName position email in
  let r := completeEmployeeProfile net userId fullName employeeNumber
             departmentName phoneNumber companyName position email w in
  fst r = Returned true
  /\ backend (snd r) = serve_insertEmployee v (backend w)
  /\ session (store (snd r)) = session (store w)
  /\ user (store (snd r)) =
       match fetched net userId (serve_insertEmployee v (backend w)) with
       | Some p => Some p
       | None => user (store w)
       end.
Proof.
  intros Hdr Hdj Hd Hir Hij v r. subst r.
  unfold completeEmployeeProfile. unfold_async. cbn.
  rewrite Hdr, Hdj, Hd. cbn. rewrite Hir, Hij. cbn.
  match goal with
  | |- context [fetchUserProfile net ?u ?x] =>
      destruct (fetchUserProfile_run net u x) as (w2 & -> & Hs2 & Hb2 & _)
  end.
  cbn in Hs2, Hb2 |- *.
  change (backend w2 = serve_insertEmployee v (backend w)) in Hb2.
  match goal with
  | |- context [fetched net userId ?b] =>
      change b with (serve_insertEmployee v (backend w))
  end.
  destruct (fetched net userId (serve_insertEmployee v (backend w)));
    cbn; rewrite ?Hb2, ?Hs2; repeat split.
Qed.

(** X11. When the department is resolved but the insert fails -- refused by
    the backend or dropped by the network -- [completeEmployeeProfile]
    returns false; no reload is requested and the store and the backend are
    left as they were. *)
Theorem completeEmployeeProfile_insert_fails
    (net : Net) (userId fullName employeeNumber departmentName : string)
    (phoneNumber companyName position email : option string) (w : World)
    (departmentId : string) :
  raises net SelectDepartmentId = None ->
  rejects net SelectDepartmentId = None ->
  serve_selectDepartmentId departmentName (backend w) = inl departmentId ->
  raises net InsertEmployee <> None \/ rejects net InsertEmployee <> None ->
  let run := completeEmployeeProfile net userId fullName employeeNumber
               departmentName phoneNumber companyName position email in
  fst (run w) = Returned false
  /\ store (snd (run w)) = store w
  /\ backend (snd (run w)) = backend w
  /\ (exists x, issued run w = [(SelectDepartmentId, Served); (InsertEmployee, x)]
                /\ x <> Served).
Proof.
  intros Hdr Hdj Hd Hfail run. subst run.
  unfold completeEmployeeProfile. unfold_async. cbn.
  rewrite Hdr, Hdj, Hd. cbn.
  destruct (raises net InsertEmployee) as [e|]; cbn.
  - tidy_logs. repeat split; try (now destruct w as [[] ? ? ?]).
    eexists; split; [reflexivity | discriminate].
  - destruct (rejects net InsertEmployee) as [e|]; cbn.
    + tidy_logs. repeat split; try (now destruct w as [[] ? ? ?]).
      eexists; split; [reflexivity | discriminate].
    + destruct Hfail as [H|H]; now contradiction H.
Qed.

Lemma completeEmployeeProfile_insert_fails_witness :
  let w := boot (Demo.with_session Demo.carol Demo.site) in
  let run := completeEmployeeProfile (Demo.refusing InsertEmployee)
               "user-3" "Carol" "E-003" "Warehouse" None None None None in
  fst (run w) = Returned false
  /\ backend (snd (run w)) = backend w.
Proof.
  intros w run.
  destruct (completeEmployeeProfile_insert_fails (Demo.refusing InsertEmployee)
              "user-3" "Carol" "E-003" "Warehouse" None None None None w "dep-2")
    as (A & _ & B & _); try reflexivity.
  - right. discriminate.
  - exact (conj A B).
Defined.

(** X12. The department is resolved with [.single()], so a name carried by
    several departments fails like a name carried by none: unless exactly
    one department has the name, [completeEmployeeProfile] returns false
    and requests no insert. *)
Theorem completeEmployeeProfile_needs_single_department
    (net : Net) (userId fullName employeeNumber departmentName : string)
    (phoneNumber companyName position email : option string) (w : World) :
  length (filter (fun d => (Department.name d =? departmentName)%string)
            (Supabase.departments (backend w))) <> 1 ->
  let run := completeEmployeeProfile net userId fullName employeeNumber
               departmentName phoneNumber companyName position email in
  fst (run w) = Returned false
  /\ (forall x, ~ In (InsertEmployee, x) (issued run w))
  /\ backend (snd (run w)) = backend w
  /\ store (snd (run w)) = store w.
Proof.
  intros Hlen run. subst run.
  assert (E : serve_selectDepartmentId departmentName (backend w) = inr PGRST116).
  { unfold serve_selectDepartmentId.
    destruct (filter _ (Supabase.departments (backend w))) as [|d [|d' l]];
      cbn in *; try reflexivity. now contradiction Hlen. }
  unfold completeEmployeeProfile. unfold_async. cbn. rewrite E.
  destruct (raises net SelectDepartmentId); cbn;
    [| destruct (rejects net SelectDepartmentId); cbn];
    tidy_logs; repeat split; try (now destruct w as [[] ? ? ?]);
    intros x [H|[]]; discriminate.
Qed.

Lemma completeEmployeeProfile_needs_single_department_witness :
  let b := {| accounts := accounts Demo.site;
              auth_session := Some (grant Demo.carol);
              Supabase.departments :=
                {| Department.id := "dep-3"; Department.name := "Warehouse" |}
                :: Supabase.departments Demo.site;
              employees := employees Demo.site;
              next_uuid := 4; now := now Demo.site |} in
  let run := completeEmployeeProfile healthy "user-3" "Carol" "E-003"
               "Warehouse" None None None None in
  fst (run (boot b)) = Returned false
  /\ employees (backend (snd (run (boot b)))) = employees Demo.site.
Proof.
  intros b run.
  destruct (completeEmployeeProfile_needs_single_department healthy
              "user-3" "Carol" "E-003" "Warehouse" None None None None (boot b))
    as (A & _ & B & _).
  - vm_compute. discriminate.
  - split; [exact A | exact (f_equal employees B)].
Defined.

(** *** What no step does *)

Ltac framed_same :=
  solve [ unfold framed; cbn;
          repeat split; try reflexivity; try (intros H; exact H);
          exists []; rewrite app_nil_r; split; [reflexivity | cbn; lia] ].

Lemma login_framed (net : Net) (email password : string) (w : World) :
  framed w (snd (login net email password w)).
Proof.
  unfold login. unfold_async. unfold serve_signInWithPassword. cbn.
  destruct (raises net SignInWithPassword); cbn; [framed_same|].
  destruct (rejects net SignInWithPassword); cbn; [framed_same|].
  destruct (find _ (accounts (backend w))) as [a|]; cbn; [|framed_same].
  match goal with
  | |- context [fetchUserProfile net ?u ?v] =>
      destruct (fetchUserProfile_run net u v) as (w2 & -> & Hs2 & Hb2 & _)
  end.
  cbn in Hs2, Hb2 |- *.
  destruct (fetched net _ _) as [p|]; cbn.
  - destruct (negb (UserProfile.is_active p)); unfold_async; cbn;
      [destruct (raises net SignOut); cbn;
       [|destruct (rejects net SignOut); cbn] |];
      unfold framed; cbn; rewrite ?Hb2, ?Hs2; cbn;
      repeat split; try (intros H; exact H);
      (exists []; rewrite app_nil_r; split; [reflexivity | cbn; lia]).
  - unfold framed; cbn; rewrite ?Hb2, ?Hs2; cbn;
      repeat split; try (intros H; exact H);
      (exists []; rewrite app_nil_r; split; [reflexivity | cbn; lia]).
Qed.

Lemma logout_framed (net : Net) (w : World) : framed w (snd (logout net w)).
Proof.
  unfold logout. unfold_async. cbn.
  destruct (raises net SignOut); cbn; [framed_same|].
  destruct (rejects net SignOut); cbn; framed_same.
Qed.

Lemma refreshUser_framed (net : Net) (w : World) :
  framed w (snd (refreshUser net w)).
Proof.
  unfold refreshUser, session_user. unfold_async. cbn.
  destruct (raises net GetSession); cbn; [framed_same|].
  destruct (rejects net GetSession); cbn; [framed_same|].
  destruct (auth_session (backend w)); cbn; [|framed_same].
  destruct (raises net SelectEmployee); cbn; [framed_same|].
  destruct (rejects net SelectEmployee); cbn; [framed_same|].
  destruct (serve_selectEmployee _ (backend w)); cbn; framed_same.
Qed.

Lemma initializeAuth_framed (net : Net) (w : World) :
  framed w (snd (initializeAuth net w)).
Proof.
  destruct (initializeAuth_run net w) as (_ & Hb & Hs).
  unfold framed. rewrite Hb, Hs. repeat split.
  - exists []. rewrite app_nil_r. split; [reflexivity | cbn; lia].
  - intros _. unfold mounted.
    now destruct (raises net GetSession), (session_read net (backend w)).
Qed.

Lemma completeEmployeeProfile_framed
    (net : Net) (userId fullName employeeNumber departmentName : string)
    (phoneNumber companyName position email : option string) (w : World) :
  framed w (snd (completeEmployeeProfile net userId fullName employeeNumber
                   departmentName phoneNumber companyName position email w)).
Proof.
  unfold completeEmployeeProfile. unfold_async. cbn.
  destruct (raises net SelectDepartmentId); cbn; [framed_same|].
  destruct (rejects net SelectDepartmentId); cbn; [framed_same|].
  destruct (serve_selectDepartmentId departmentName (backend w));
    cbn; [|framed_same].
  destruct (raises net InsertEmployee); cbn; [framed_same|].
  destruct (rejects net InsertEmployee); cbn; [framed_same|].
  match goal with
  | |- context [fetchUserProfile net ?u ?v] =>
      destruct (fetchUserProfile_run net u v) as (w2 & -> & Hs2 & Hb2 & _)
  end.
  cbn in Hs2, Hb2 |- *.
  destruct (fetched net _ _); unfold framed; cbn; rewrite ?Hb2, ?Hs2; cbn;
    repeat split; try (intros H; exact H);
    (eexists; split; [reflexivity | cbn; lia]).
Qed.

Lemma onAuthStateChange_framed
    (net : Net) (event : AuthChangeEvent) (newSession : option Session.t)
    (w : World) :
  framed w (snd (onAuthStateChange net event newSession w)).
Proof.
  unfold onAuthStateChange, session_user.
  destruct event; unfold_async; cbn; try framed_same.
  - destruct newSession as [s|]; cbn; [|framed_same].
    match goal with
    | |- context [fetchUserProfile net ?u ?v] =>
        destruct (fetchUserProfile_run net u v) as (w2 & -> & Hs2 & Hb2 & _)
    end.
    cbn in Hs2, Hb2 |- *.
    destruct (fetched net _ _); unfold framed; cbn; rewrite ?Hb2, ?Hs2; cbn;
      repeat split; try (intros H; exact H);
      (exists []; rewrite app_nil_r; split; [reflexivity | cbn; lia]).
  - destruct newSession; framed_same.
Qed.

Lemma perform_framed (net : Net) (c : Call) (w : World) :
  is_outside c = false -> framed w (perform net c w).
Proof.
  destruct c; cbn; intros Hc; try discriminate Hc.
  - apply initializeAuth_framed.
  - apply login_framed.
  - apply logout_framed.
  - apply refreshUser_framed.
  - apply completeEmployeeProfile_framed.
  - apply onAuthStateChange_framed.
Qed.

(** X13. The provider never edits or deletes a row and never touches the
    accounts or the departments. Across any history of its own steps the
    [employees] table only grows at its end, by at most one row per step. *)
Theorem provider_only_appends_profiles
    (history : list (Net * Call)) (w : World) :
  Forall (fun step => is_outside (snd step) = false) history ->
  accounts (backend (replay history w)) = accounts (backend w)
  /\ Supabase.departments (backend (replay history w))
     = Supabase.departments (backend w)
  /\ exists added,
       employees (backend (replay history w)) = employees (backend w) ++ added
       /\ length added <= length history.
Proof.
  revert w. induction history as [|[net c] rest IH]; intros w Hh; cbn.
  - repeat split. exists []. rewrite app_nil_r. split; [reflexivity | cbn; lia].
  - inversion Hh as [|? ? Hc Hrest]; subst.
    destruct (perform_framed net c w Hc) as (Ha & Hd & (new & He & Hn) & _).
    destruct (IH (perform net c w) Hrest) as (Ia & Id & (added & Ie & In')).
    rewrite Ia, Id, Ie, He, Ha, Hd. repeat split.
    exists (new ++ added). rewrite app_assoc. split; [reflexivity|].
    rewrite length_app. lia.
Qed.

Lemma provider_only_appends_profiles_witness :
  let history :=
    [ (healthy, CallLogin "carol@example.com" "carol-secret");
      (healthy, CallCompleteProfile "user-3" "Carol" "E-003" "Warehouse"
                  None None None None);
      (healthy, CallRefresh);
      (healthy, CallLogout) ] in
  exists added,
    employees (backend (replay history (boot Demo.site)))
    = employees Demo.site ++ added
    /\ length added <= 4.
Proof.
  intros history.
  destruct (provider_only_appends_profiles history (boot Demo.site))
    as (_ & _ & H).
  - repeat constructor.
  - exact H.
Defined.

(** X14. Once the loading flag is false no step of the provider, and nothing
    that happens outside, sets it again; [initializeAuth] makes it false, so
    after the first mount in a history the flag stays false. *)
Theorem loading_flag_settles
    (before after : list (Net * Call)) (net : Net) (w : World) :
  isLoading (store (replay (before ++ (net, CallInitialize) :: after) w)) = false.
Proof.
  assert (Hkeep : forall history v,
             isLoading (store v) = false ->
             isLoading (store (replay history v)) = false).
  { induction history as [|[n c] rest IH]; intros v Hv; cbn; [exact Hv|].
    apply IH. destruct (is_outside c) eqn:Hc.
    - destruct c; try discriminate Hc. exact Hv.
    - now apply (perform_framed n c v Hc). }
  revert w. induction before as [|[n c] rest IH]; intros w; cbn.
  - apply Hkeep. destruct (initializeAuth_run net w) as (_ & _ & ->).
    unfold mounted.
    now destruct (raises net GetSession), (session_read net (backend w)).
  - apply IH.
Qed.

(** X15. From a freshly created provider, in any history that does not call
    [refreshUser], the store never holds a deactivated profile, whatever
    the network does and however the backend is changed from outside. *)
Theorem no_deactivated_profile_without_refresh
    (b : Backend) (history : list (Net * Call)) (p : UserProfile.t) :
  Forall (fun step => is_refresh (snd step) = false) history ->
  user (store (replay history (boot b))) = Some p ->
  UserProfile.is_active p = true.
Proof.
  intros Hh. apply (gate_without_refresh history (boot b) Hh), boot_gate.
Qed.

Lemma no_deactivated_profile_without_refresh_witness :
  let history :=
    [ (healthy, CallInitialize);
      (healthy, CallLogin "alice@example.com" "alice-secret");
      (healthy, Outside (Demo.deactivate "user-1"
                           (Demo.with_session Demo.alice Demo.site)));
      (healthy, CallEvent TOKEN_REFRESHED (Some (grant Demo.alice))) ] in
  user (store (replay history (boot Demo.site))) = Some Demo.alice_row
  /\ UserProfile.is_active Demo.alice_row = true.
Proof.
  intros history.
  assert (E : user (store (replay history (boot Demo.site))) = Some Demo.alice_row)
    by (vm_compute; reflexivity).
  split; [exact E|].
  apply (no_deactivated_profile_without_refresh Demo.site history Demo.alice_row);
    [repeat constructor | exact E].
Defined.

(** X16. [refreshUser] is the only operation that can throw: every other
    step of a history completes normally, whatever the network does. *)
Theorem only_refreshUser_throws (net : Net) (c : Call) (w : World) :
  is_refresh c = false -> escapes net c w = None.
Proof.
  destruct c; cbn; intros Hc; try discriminate Hc; try reflexivity; unfold thrown.
  - now destruct (initializeAuth_run net w) as (-> & _).
  - now destruct (login_returns net email password w) as ((ok & ->) & _).
  - unfold logout. unfold_async. cbn.
    destruct (raises net SignOut); cbn; [reflexivity|].
    now destruct (rejects net SignOut).
  - unfold completeEmployeeProfile. unfold_async. cbn.
    destruct (raises net SelectDepartmentId); cbn; [reflexivity|].
    destruct (rejects net SelectDepartmentId); cbn; [reflexivity|].
    destruct (serve_selectDepartmentId departmentName (backend w));
      cbn; [|reflexivity].
    destruct (raises net InsertEmployee); cbn; [reflexivity|].
    destruct (rejects net InsertEmployee); cbn; [reflexivity|].
    match goal with
    | |- context [fetchUserProfile net ?u ?v] =>
        destruct (fetchUserProfile_run net u v) as (w2 & -> & _)
    end.
    cbn. now destruct (fetched net _ _).
  - unfold onAuthStateChange, session_user.
    destruct event; unfold_async; cbn; try reflexivity.
    + destruct newSession as [s|]; cbn; [|reflexivity].
      match goal with
      | |- context [fetchUserProfile net ?u ?v] =>
          destruct (fetchUserProfile_run net u v) as (w2 & -> & _)
      end.
      cbn. now destruct (fetched net _ _).
    + now destruct newSession.
Qed.

Lemma only_refreshUser_throws_witness :
  escapes (Demo.dropping SignInWithPassword)
    (CallLogin "alice@example.com" "alice-secret") (boot Demo.site) = None
  /\ escapes (Demo.dropping GetSession) CallRefresh (boot Demo.site)
     = Some Demo.network_error.
Proof.
  split.
  - apply only_refreshUser_throws. reflexivity.
  - reflexivity.
Defined.
(** *** Sequences of operations *)

(** A sign-out the backend serves. *)
Lemma logout_served (net : Net) (w : World) :
  raises net SignOut = None ->
  rejects net SignOut = None ->
  session (store (snd (logout net w))) = None
  /\ user (store (snd (logout net w))) = None
  /\ auth_session (backend (snd (logout net w))) = None.
Proof.
  intros Hr Hj. unfold logout. unfold_async. cbn. rewrite Hr, Hj. cbn.
  repeat split.
Qed.

(** X17. After a sign-out the backend served, nothing brings the session back
    by itself: a remount ([initializeAuth]) and a [refreshUser], under any
    network, both end with no session and no profile, from any prior
    state. *)
Theorem logout_is_not_undone_by_remount
    (net net1 net2 : Net) (w : World) :
  raises net SignOut = None ->
  rejects net SignOut = None ->
  let out := snd (logout net w) in
  (session (store (snd (initializeAuth net1 out))) = None
   /\ user (store (snd (initializeAuth net1 out))) = None
   /\ isLoading (store (snd (initializeAuth net1 out))) = false)
  /\ (session (store (snd (refreshUser net2 out))) = None
      /\ user (store (snd (refreshUser net2 out))) = None).
Proof.
  intros Hr Hj out.
  destruct (logout_served net w Hr Hj) as (Hs & Hu & Hb). fold out in Hs, Hu, Hb.
  split.
  - destruct (initializeAuth_run net1 out) as (_ & _ & ->).
    unfold mounted, session_read. rewrite Hb.
    destruct (raises net1 GetSession), (rejects net1 GetSession); cbn;
      repeat split; assumption.
  - unfold refreshUser, session_user. unfold_async. cbn. rewrite Hb.
    destruct (raises net2 GetSession); cbn; [split; assumption|].
    destruct (rejects net2 GetSession); cbn; split; reflexivity.
Qed.

Lemma logout_is_not_undone_by_remount_witness :
  let w := snd (login healthy "alice@example.com" "alice-secret" (boot Demo.site)) in
  let out := snd (logout healthy w) in
  session (store w) = Some (grant Demo.alice)
  /\ session (store (snd (initializeAuth healthy out))) = None
  /\ user (store (snd (initializeAuth healthy out))) = None.
Proof.
  intros w out.
  destruct (logout_is_not_undone_by_remount healthy healthy healthy w
              eq_refl eq_refl) as ((A & B & _) & _).
  exact (conj eq_refl (conj A B)).
Defined.

(** The tables the lookups read. *)
Lemma serve_selectDepartmentId_ext (name : string) (b b' : Backend) :
  Supabase.departments b = Supabase.departments b' ->
  serve_selectDepartmentId name b = serve_selectDepartmentId name b'.
Proof.
  unfold serve_selectDepartmentId. now intros ->.
Qed.

Lemma active_profiles_of_deactivated (userId : string) (b b' : Backend) :
  employees b' = employees b ->
  (forall p, In p (profiles_of userId b) -> UserProfile.is_active p = false) ->
  active_profiles_of userId b' = [].
Proof.
  unfold active_profiles_of, profiles_of. intros -> H.
  induction (filter _ (employees b)) as [|q l IH]; [reflexivity|].
  simpl. rewrite (H q) by (left; reflexivity). simpl.
  apply IH. intros p Hp. apply H. right. exact Hp.
Qed.

(** X18. Deactivation does not keep a user out. A user whose rows are all
    deactivated logs in (the fetch sees no profile); completing the profile
    then appends a fresh active row, and on a healthy network the store ends
    with the session and that new, active profile. *)
Theorem deactivated_user_can_onboard_again
    (net net' : Net) (email password : string) (w : World) (a : Account)
    (fullName employeeNumber departmentName departmentId : string)
    (phoneNumber companyName position email' : option string) :
  raises net SignInWithPassword = None ->
  rejects net SignInWithPassword = None ->
  find (credentials_match (Js.trim (Js.toLowerCase email)) password)
       (accounts (backend w)) = Some a ->
  (forall p, In p (profiles_of (User.id (Session.user (grant a))) (backend w)) ->
             UserProfile.is_active p = false) ->
  raises net' SelectDepartmentId = None ->
  rejects net' SelectDepartmentId = None ->
  serve_selectDepartmentId departmentName (backend w) = inl departmentId ->
  raises net' InsertEmployee = None ->
  rejects net' InsertEmployee = None ->
  raises net' SelectActiveEmployee = None ->
  rejects net' SelectActiveEmployee = None ->
  let uid := User.id (Session.user (grant a)) in
  let w1 := snd (login net email password w) in
  let r := completeEmployeeProfile net' uid fullName employeeNumber
             departmentName phoneNumber companyName position email' w1 in
  fst (login net email password w) = Returned true
  /\ user (store w1) = user (store w)
  /\ fst r = Returned true
  /\ session (store (snd r)) = Some (grant a)
  /\ exists p, user (store (snd r)) = Some p
               /\ UserProfile.is_active p = true
               /\ UserProfile.user_id p = uid
               /\ UserProfile.full_name p = fullName
               /\ employees (backend (snd r)) = employees (backend w) ++ [p].
Proof.
  intros Hr Hj Hfind Hoff Hdr Hdj Hd Hir Hij Har Haj uid w1 r.
  destruct (login_granted net email password w a Hr Hj Hfind)
    as (L1 & L2 & L3 & _ & _ & Le & _).
  fold w1 in L2, L3, Le.
  destruct (login_framed net email password w) as (_ & Ld & _). fold w1 in Ld.
  rewrite (fetched_deactivated net _ _ Hoff) in L3.
  assert (Hd1 : serve_selectDepartmentId departmentName (backend w1)
                = inl departmentId)
    by (rewrite (serve_selectDepartmentId_ext _ _ (backend w) Ld); exact Hd).
  destruct (completeEmployeeProfile_served net' uid fullName employeeNumber
              departmentName phoneNumber companyName position email' w1
              departmentId Hdr Hdj Hd1 Hir Hij) as (C1 & C2 & C3 & C4).
  fold r in C1, C2, C3, C4.
  set (v := profile_values uid fullName employeeNumber departmentId
              departmentName phoneNumber companyName position email') in *.
  assert (Hnew : fetched net' uid (serve_insertEmployee v (backend w1))
                 = Some (new_row v (backend w1)))
    by exact (fetched_after_insert net' v (backend w1) Har Haj eq_refl
                (active_profiles_of_deactivated uid (backend w) (backend w1)
                   Le Hoff)).
  rewrite Hnew in C4.
  refine (conj L1 (conj L3 (conj C1 (conj _ _)))).
  - now rewrite C3.
  - exists (new_row v (backend w1)).
    refine (conj C4 (conj eq_refl (conj eq_refl (conj eq_refl _)))).
    rewrite C2. cbn. now rewrite Le.
Qed.

Lemma deactivated_user_can_onboard_again_witness :
  let w1 := snd (login healthy "bob@example.com" "bob-secret" (boot Demo.site)) in
  let r := completeEmployeeProfile healthy "user-2" "Bob" "E-777" "Warehouse"
             None None None None w1 in
  UserProfile.is_active Demo.bob_row = false
  /\ fst r = Returned true
  /\ exists p, user (store (snd r)) = Some p /\ UserProfile.is_active p = true.
Proof.
  intros w1 r.
  destruct (deactivated_user_can_onboard_again healthy healthy
              "bob@example.com" "bob-secret" (boot Demo.site) Demo.bob
              "Bob" "E-777" "Warehouse" "dep-2" None None None None
              eq_refl eq_refl eq_refl)
    as (_ & _ & A & _ & (p & B & C & _)); try reflexivity.
  - intros p [<-|[]]. reflexivity.
  - refine (conj eq_refl (conj A _)). exists p. exact (conj B C).
Defined.

(** Sorting by name keeps the departments. *)
Lemma insert_by_name_In (d x : Department.t) (l : list Department.t) :
  In x (insert_by_name d l) <-> x = d \/ In x l.
Proof.
  induction l as [|y l IH]; simpl.
  - intuition congruence.
  - destruct (Department.name d <=? Department.name y)%string; simpl.
    + intuition congruence.
    + rewrite IH. intuition congruence.
Qed.

Lemma order_by_name_In (x : Department.t) (l : list Department.t) :
  In x (order_by_name l) <-> In x l.
Proof.
  unfold order_by_name. induction l as [|y l IH]; simpl; [reflexivity|].
  rewrite insert_by_name_In, IH. intuition congruence.
Qed.

Lemma filter_none {A : Type} (f : A -> bool) (l : list A) :
  (forall x, In x l -> f x = false) -> filter f l = [].
Proof.
  induction l as [|y l IH]; intros H; [reflexivity|].
  simpl. rewrite (H y) by (left; reflexivity).
  apply IH. intros x Hx. apply H. right. exact Hx.
Qed.

(** With distinct names, a name selects its department. *)
Lemma filter_by_name_unique (d : Department.t) (l : list Department.t) :
  NoDup (map Department.name l) ->
  In d l ->
  filter (fun x => (Department.name x =? Department.name d)%string) l = [d].
Proof.
  induction l as [|y l IH]; intros Hnd Hin; [contradiction Hin|].
  inversion Hnd as [|? ? Hy Hl]; subst. simpl.
  destruct Hin as [->|Hin].
  - rewrite String.eqb_refl. f_equal.
    apply filter_none. intros x Hx.
    destruct (String.eqb_spec (Department.name x) (Department.name d)) as [E|_];
      [|reflexivity].
    exfalso. apply Hy. rewrite <- E. now apply in_map.
  - destruct (String.eqb_spec (Department.name y) (Department.name d)) as [E|_].
    + exfalso. apply Hy. rewrite E. now apply in_map.
    + now apply IH.
Qed.

(** X19. A department picked from the list [loadDepartments] has just loaded
    resolves: when the department names of the backend are distinct, any
    entry of the loaded list, passed by name to [completeEmployeeProfile],
    is found again, and on an accepted insert the profile is created with
    that department's identifier. *)
Theorem listed_department_resolves
    (net0 net : Net) (w : World) (d : Department.t)
    (userId fullName employeeNumber : string)
    (phoneNumber companyName position email : option string) :
  raises net0 SelectDepartments = None ->
  rejects net0 SelectDepartments = None ->
  NoDup (map Department.name (Supabase.departments (backend w))) ->
  let w1 := snd (loadDepartments net0 w) in
  In d (departments (store w1)) ->
  raises net SelectDepartmentId = None ->
  rejects net SelectDepartmentId = None ->
  raises net InsertEmployee = None ->
  rejects net InsertEmployee = None ->
  let r := completeEmployeeProfile net userId fullName employeeNumber
             (Department.name d) phoneNumber companyName position email w1 in
  fst r = Returned true
  /\ exists p, employees (backend (snd r)) = employees (backend w) ++ [p]
               /\ UserProfile.department_id p = Some (Department.id d)
               /\ UserProfile.department_name p = Some (Department.name d).
Proof.
  intros Hlr Hlj Hnd w1 Hin Hdr Hdj Hir Hij r.
  destruct (loadDepartments_run net0 w) as (w' & E & Hb & Hs).
  assert (Hw1 : w1 = w') by (unfold w1; now rewrite E). clearbody w1. subst w'.
  rewrite Hs in Hin. cbn in Hin. unfold listed in Hin. rewrite Hlr, Hlj in Hin.
  unfold serve_selectDepartments in Hin.
  apply (proj1 (order_by_name_In _ _)) in Hin.
  assert (Hd : serve_selectDepartmentId (Department.name d) (backend w1)
               = inl (Department.id d)).
  { unfold serve_selectDepartmentId. rewrite Hb.
    now rewrite (filter_by_name_unique d _ Hnd Hin). }
  destruct (completeEmployeeProfile_served net userId fullName employeeNumber
              (Department.name d) phoneNumber companyName position email w1
              (Department.id d) Hdr Hdj Hd Hir Hij) as (C1 & C2 & _).
  fold r in C1, C2. split; [exact C1|].
  eexists. rewrite C2. cbn. rewrite Hb. repeat split.
Qed.

Lemma listed_department_resolves_witness :
  let w1 := snd (loadDepartments healthy (boot (Demo.with_session Demo.carol Demo.site))) in
  fst (completeEmployeeProfile healthy "user-3" "Carol" "E-003" "Construction"
         None None None None w1) = Returned true.
Proof.
  intros w1.
  apply (listed_department_resolves healthy healthy
           (boot (Demo.with_session Demo.carol Demo.site))
           {| Department.id := "dep-1"; Department.name := "Construction" |}
           "user-3" "Carol" "E-003" None None None None);
    try reflexivity.
  - repeat constructor; cbn; intuition discriminate.
  - left. reflexivity.
Defined.
(** *** Signing up *)

(** X20. [signup] never throws and never signs anybody in: whatever the auth
    server answers, the stored session, the stored profile and the other
    cells are as before, [isSigningUp] ends false, and the backend is the
    one the auth server left (no row is inserted). It returns true exactly
    when the reply carries a user and no error. The profile fields it is
    given do not matter. *)
Theorem signup_contract
    (server : AuthServer)
    (email password fullName employeeNumber departmentName : string)
    (phoneNumber companyName position : option string) (w : World) :
  let r := signup server email password fullName employeeNumber departmentName
             phoneNumber companyName position w in
  let answer := server (Js.trim (Js.toLowerCase email)) password (backend w) in
  (exists ok, fst r = Returned ok)
  /\ (fst r = Returned true <->
      exists u b', answer = inl ({| signup_user := Some u; signup_error := None |}, b'))
  /\ session (store (snd r)) = session (store w)
  /\ user (store (snd r)) = user (store w)
  /\ departments (store (snd r)) = departments (store w)
  /\ isLoading (store (snd r)) = isLoading (store w)
  /\ isSigningUp (store (snd r)) = false
  /\ backend (snd r) = match answer with
                       | inl (_, b') => b'
                       | inr _ => backend w
                       end
  /\ (forall fullName' employeeNumber' departmentName'
             phoneNumber' companyName' position',
        signup server email password fullName' employeeNumber' departmentName'
          phoneNumber' companyName' position' w = r).
Proof.
  unfold signup, auth_signUp, setIsSigningUp. unfold_async. cbn.
  destruct (server (Js.trim (Js.toLowerCase email)) password (backend w))
    as [[[u [e|]] b']|e]; cbn.
  - repeat split; eauto; try discriminate.
    intros (u' & b'' & H). discriminate H.
  - destruct u as [u|]; cbn; repeat split; eauto; try discriminate.
    intros (u' & b'' & H). discriminate H.
  - repeat split; eauto; try discriminate.
    intros (u' & b'' & H). discriminate H.
Qed.

Lemma signup_contract_witness :
  let server : AuthServer :=
    fun email password b =>
      inl ({| signup_user := Some {| User.id := "user-4"; User.email := email |};
              signup_error := None |}, b) in
  let r := signup server " Dave@Example.com" "dave-secret" "Dave" "E-004"
             "Warehouse" None None None (boot Demo.site) in
  fst r = Returned true
  /\ session (store (snd r)) = None
  /\ employees (backend (snd r)) = employees Demo.site.
Proof.
  intros server r.
  destruct (signup_contract server " Dave@Example.com" "dave-secret" "Dave"
              "E-004" "Warehouse" None None None (boot Demo.site))
    as (_ & (_ & A) & B & _ & _ & _ & _ & C & _).
  refine (conj _ (conj B (f_equal employees C))).
  apply A. eexists. eexists. reflexivity.
Defined.
(** *** The root layout *)

(** X21. After the mount effect, from a freshly created provider, the root
    layout always has a route. It is the login screen when no session could
    be read, the main app when the session's user has one active profile
    that could be fetched, and the complete-profile screen otherwise: no
    profile, a deactivated one, several active ones, or a failed fetch. *)
Theorem redirect_after_mount (net : Net) (b : Backend) :
  let s := store (snd (initializeAuth net (boot b))) in
  redirect s =
    Some (match raises net GetSession, session_read net b with
          | None, Some x =>
              match fetched net (User.id (Session.user x)) b with
              | Some _ => RouteAnalytics
              | None => RouteCompleteProfile
              end
          | _, _ => RouteLogin
          end)
  /\ (forall x, raises net GetSession = None ->
                session_read net b = Some x ->
                (forall p, In p (profiles_of (User.id (Session.user x)) b) ->
                           UserProfile.is_active p = false) ->
                redirect s = Some RouteCompleteProfile).
Proof.
  intros s. subst s.
  destruct (initializeAuth_run net (boot b)) as (_ & _ & ->).
  unfold mounted, redirect. cbn. split.
  - destruct (raises net GetSession); [reflexivity|].
    destruct (session_read net b) as [x|]; [|reflexivity]. cbn.
    now destruct (fetched net (User.id (Session.user x)) b).
  - intros x -> -> Hoff. cbn. now rewrite (fetched_deactivated net _ _ Hoff).
Qed.

Lemma redirect_after_mount_witness :
  redirect (store (snd (initializeAuth healthy
                          (boot (Demo.with_session Demo.bob Demo.site)))))
  = Some RouteCompleteProfile.
Proof.
  destruct (redirect_after_mount healthy (Demo.with_session Demo.bob Demo.site))
    as (_ & H).
  apply (H (grant Demo.bob) eq_refl eq_refl).
  intros p [<-|[]]. reflexivity.
Defined.

(** *** The logout buttons *)

(** X22. The error branch of the tab bar's logout handler is dead: [logout]
    never throws, so the handler always ends with [isLoggingOut] still true
    and the world [logout] left, also when the sign-out failed and the
    session and the profile are still stored. *)
Theorem tab_handleLogout_never_resets (net : Net) (w : World) :
  tab_handleLogout net w = (Returned true, snd (logout net w))
  /\ (forall e, raises net SignOut = Some e ->
                store (snd (tab_handleLogout net w)) = store w
                /\ shown (tab_handleLogout net) w
                   = [Alert "Logout Failed" (ApiError.message e)]).
Proof.
  unfold tab_handleLogout, logout. unfold_async. cbn.
  destruct (raises net SignOut) as [e|]; cbn.
  - split; [reflexivity|]. intros ? [= <-]. tidy_logs.
    split; [now destruct w as [[] ? ? ?] | reflexivity].
  - destruct (rejects net SignOut); cbn; (split; [reflexivity | discriminate]).
Qed.

Lemma tab_handleLogout_never_resets_witness :
  let w := Demo.holding Demo.alice Demo.alice_row
             (Demo.with_session Demo.alice Demo.site) in
  fst (tab_handleLogout (Demo.dropping SignOut) w) = Returned true
  /\ session (store (snd (tab_handleLogout (Demo.dropping SignOut) w)))
     = Some (grant Demo.alice).
Proof.
  intros w.
  destruct (tab_handleLogout_never_resets (Demo.dropping SignOut) w) as (A & B).
  destruct (B Demo.network_error eq_refl) as (C & _).
  split; [now rewrite A | now rewrite C].
Defined.

(** X23. The profile screen's confirmed logout always navigates to the login
    screen, because [logout] never throws. When the sign-out request threw,
    the store still holds what it held: for a signed-in user with a profile
    the routing rule of the root layout, applied to that store, still
    answers the main app, not the login screen. When the request did not
    throw, the rule answers the login screen. *)
Theorem profile_confirmLogout_always_navigates (net : Net) (w : World) :
  fst (profile_confirmLogout net w) = Returned (true, [RouteLogin])
  /\ store (snd (profile_confirmLogout net w)) = store (snd (logout net w))
  /\ backend (snd (profile_confirmLogout net w)) = backend (snd (logout net w))
  /\ (forall e, raises net SignOut = Some e ->
                isLoading (store w) = false ->
                session (store w) <> None ->
                user (store w) <> None ->
                redirect (store (snd (profile_confirmLogout net w)))
                = Some RouteAnalytics)
  /\ (raises net SignOut = None ->
      isLoading (store w) = false ->
      redirect (store (snd (profile_confirmLogout net w))) = Some RouteLogin).
Proof.
  unfold profile_confirmLogout, logout. unfold_async. cbn.
  destruct (raises net SignOut) as [e|]; cbn.
  - repeat split; try discriminate.
    intros ? _ Hl Hs Hu. unfold redirect. rewrite Hl.
    destruct (session (store w)); [|now contradiction Hs].
    destruct (user (store w)); [reflexivity | now contradiction Hu].
  - destruct (rejects net SignOut); cbn; repeat split; try discriminate;
      intros _ Hl; unfold redirect; cbn; now rewrite Hl.
Qed.

Lemma profile_confirmLogout_always_navigates_witness :
  let w := Demo.holding Demo.alice Demo.alice_row
             (Demo.with_session Demo.alice Demo.site) in
  fst (profile_confirmLogout (Demo.dropping SignOut) w)
  = Returned (true, [RouteLogin])
  /\ redirect (store (snd (profile_confirmLogout (Demo.dropping SignOut) w)))
     = Some RouteAnalytics
  /\ redirect (store (snd (profile_confirmLogout healthy w))) = Some RouteLogin.
Proof.
  intros w.
  destruct (profile_confirmLogout_always_navigates (Demo.dropping SignOut) w)
    as (A & _ & _ & B & _).
  destruct (profile_confirmLogout_always_navigates healthy w)
    as (_ & _ & _ & _ & C).
  refine (conj A (conj _ (C eq_refl eq_refl))).
  apply (B Demo.network_error); try reflexivity; discriminate.
Defined.

(** *** Pull-to-refresh *)

(** X24. Pull-to-refresh never throws and never shows an alert: it leaves the
    store and the backend exactly as [refreshUser] leaves them, and a
    failure of [refreshUser] only reaches the console. *)
Theorem onRefresh_swallows (net : Net) (w : World) :
  fst (onRefresh net w) = Returned tt
  /\ store (snd (onRefresh net w)) = store (snd (refreshUser net w))
  /\ backend (snd (onRefresh net w)) = backend (snd (refreshUser net w))
  /\ (forall t m, ~ In (Alert t m) (shown (onRefresh net) w))
  /\ (forall e, fst (refreshUser net w) = Thrown e ->
                In (ConsoleError "Refresh failed:") (shown (onRefresh net) w)).
Proof.
  unfold onRefresh, refreshUserData, refreshUser, session_user.
  unfold_async. cbn.
  destruct (raises net GetSession); cbn.
  - tidy_logs. rewrite <- !app_assoc, skipn_length_app. cbn.
    repeat split; try (intros ? ? H; repeat (destruct H as [H|H]; try discriminate H); exact H).
    intros _ _. auto 10.
  - destruct (rejects net GetSession); cbn;
      [tidy_logs; rewrite <- ?app_assoc, ?skipn_length_app; cbn;
       repeat split; try discriminate;
       intros ? ? H; repeat (destruct H as [H|H]; try discriminate H); exact H |].
    destruct (auth_session (backend w)); cbn.
    + destruct (raises net SelectEmployee); cbn;
        [| destruct (rejects net SelectEmployee); cbn;
           [| destruct (serve_selectEmployee _ (backend w)); cbn]];
        tidy_logs; rewrite <- ?app_assoc, ?skipn_length_app; cbn;
        repeat split;
        try (intros ? ? H; repeat (destruct H as [H|H]; try discriminate H); exact H);
        try discriminate; intros; auto 10.
    + tidy_logs. rewrite <- ?app_assoc, ?skipn_length_app; cbn.
      repeat split; try discriminate;
        intros ? ? H; repeat (destruct H as [H|H]; try discriminate H); exact H.
Qed.

Lemma onRefresh_swallows_witness :
  let w := boot (Demo.with_session Demo.carol Demo.site) in
  fst (refreshUser healthy w) = Thrown PGRST116
  /\ fst (onRefresh healthy w) = Returned tt
  /\ In (ConsoleError "Refresh failed:") (shown (onRefresh healthy) w).
Proof.
  intros w.
  destruct (onRefresh_swallows healthy w) as (A & _ & _ & _ & B).
  exact (conj eq_refl (conj A (B PGRST116 eq_refl))).
Defined.

(** *** The complete-profile screen *)

(** X25. [handleCompleteProfile] asks the backend for nothing unless the
    trimmed full name is non-empty, a department is selected and the stored
    session carries a user id: otherwise it shows one "Error" alert and
    leaves the store, the backend and the screen's loading flag as they
    were. *)
Theorem handleCompleteProfile_guards
    (net : Net) (generated : string) (formData : ProfileForm) (loading : bool)
    (w : World) :
  Js.trim (fullName formData) = ""
  \/ department formData = ""
  \/ session_user_id (session (store w)) = None ->
  let run := handleCompleteProfile net generated formData loading in
  fst (run w) = Returned loading
  /\ issued run w = []
  /\ store (snd (run w)) = store w
  /\ backend (snd (run w)) = backend w
  /\ exists m, shown run w = [Alert "Error" m].
Proof.
  intros H run. subst run.
  unfold handleCompleteProfile, useAuth. unfold_async. cbn.
  destruct (String.eqb_spec (Js.trim (fullName formData)) "") as [_|Hn]; cbn.
  { tidy_logs. repeat split; try (now destruct w as [[] ? ? ?]). eauto. }
  destruct (String.eqb_spec (department formData) "") as [_|Hd]; cbn.
  { tidy_logs. repeat split; try (now destruct w as [[] ? ? ?]). eauto. }
  destruct H as [H|[H|H]]; [now contradiction Hn | now contradiction Hd |].
  rewrite H. cbn. tidy_logs.
  repeat split; try (now destruct w as [[] ? ? ?]). eauto.
Qed.

Lemma handleCompleteProfile_guards_witness :
  let form := {| fullName := "   "; department := "Warehouse";
                 phoneNumber := ""; companyName := "" |} in
  let w := boot (Demo.with_session Demo.carol Demo.site) in
  issued (handleCompleteProfile healthy "EMP1" form false) w = []
  /\ backend (snd (handleCompleteProfile healthy "EMP1" form false w)) = backend w.
Proof.
  intros form w.
  destruct (handleCompleteProfile_guards healthy "EMP1" form false w)
    as (_ & A & _ & B & _).
  - left. reflexivity.
  - exact (conj A B).
Defined.

(** A blank field stays null through both defaults. *)
Lemma or_null_or_undefined (x : string) :
  Js.or_null (or_undefined x) = or_undefined x.
Proof.
  unfold or_undefined, Js.or_null.
  destruct (String.eqb_spec x "") as [E|E]; [reflexivity|].
  now destruct (String.eqb_spec x "").
Qed.

(** The whole run of [completeEmployeeProfile] for a user without an active
    row, on a healthy network. *)
Lemma completeEmployeeProfile_fresh_run
    (net : Net) (userId fullName employeeNumber departmentName : string)
    (phoneNumber companyName position email : option string) (w : World)
    (departmentId : string) :
  raises net SelectDepartmentId = None ->
  rejects net SelectDepartmentId = None ->
  serve_selectDepartmentId departmentName (backend w) = inl departmentId ->
  raises net InsertEmployee = None ->
  rejects net InsertEmployee = None ->
  raises net SelectActiveEmployee = None ->
  rejects net SelectActiveEmployee = None ->
  active_profiles_of userId (backend w) = [] ->
  let v := profile_values userId fullName employeeNumber departmentId
             departmentName phoneNumber companyName position email in
  completeEmployeeProfile net userId fullName employeeNumber departmentName
    phoneNumber companyName position email w
  = (Returned true,
     {| store := {| user := Some (new_row v (backend w));
                    session := session (store w);
                    departments := departments (store w);
                    isLoading := isLoading (store w);
                    isSigningUp := isSigningUp (store w);
                    isLoggingIn := isLoggingIn (store w) |};
        backend := serve_insertEmployee v (backend w);
        trace := ((trace w ++ [(SelectDepartmentId, Served)])
                    ++ [(InsertEmployee, Served)])
                   ++ [(SelectActiveEmployee, Served)];
        outputs := outputs w |}).
Proof.
  intros Hdr Hdj Hd Hir Hij Har Haj Hnone v.
  assert (Hrows : active_profiles_of userId (serve_insertEmployee v (backend w))
                  = [new_row v (backend w)]).
  { unfold active_profiles_of, profiles_of in *. cbn.
    rewrite !filter_app, Hnone. cbn. now rewrite String.eqb_refl. }
  assert (Hfetch : forall x,
             backend x = serve_insertEmployee v (backend w) ->
             fetchUserProfile net userId x
             = (Returned (Some (new_row v (backend w))),
                logged (SelectActiveEmployee, Served) (backend x) x)).
  { intros x Hx. unfold fetchUserProfile. unfold_async.
    unfold serve_selectActiveEmployee.
    rewrite Har, Haj, Hx, Hrows. reflexivity. }
  unfold completeEmployeeProfile. unfold_async. cbn.
  rewrite Hdr, Hdj, Hd. cbn. rewrite Hir, Hij. cbn.
  rewrite Hfetch by reflexivity. reflexivity.
Qed.

(** X26. What [handleCompleteProfile] stores for a new user. With a session,
    no profile in the store, a department the backend resolves, no active
    row for the user yet and a healthy network, the handler ends with the
    loading flag off and the "Profile completed successfully!" alert, and
    the stored profile is an active row of that user carrying the trimmed
    full name, the generated employee number, position "Employee", and
    phone and company trimmed, or null when blank. *)
Theorem handleCompleteProfile_stores_trimmed
    (net : Net) (generated : string) (formData : ProfileForm) (loading : bool)
    (w : World) (s : Session.t) (departmentId : string) :
  session (store w) = Some s ->
  user (store w) = None ->
  User.id (Session.user s) <> "" ->
  Js.trim (fullName formData) <> "" ->
  department formData <> "" ->
  serve_selectDepartmentId (department formData) (backend w) = inl departmentId ->
  active_profiles_of (User.id (Session.user s)) (backend w) = [] ->
  raises net SelectDepartmentId = None ->
  rejects net SelectDepartmentId = None ->
  raises net InsertEmployee = None ->
  rejects net InsertEmployee = None ->
  raises net SelectActiveEmployee = None ->
  rejects net SelectActiveEmployee = None ->
  let run := handleCompleteProfile net generated formData loading in
  fst (run w) = Returned false
  /\ shown run w = [Alert "Success" "Profile completed successfully!"]
  /\ exists p,
       user (store (snd (run w))) = Some p
       /\ employees (backend (snd (run w))) = employees (backend w) ++ [p]
       /\ UserProfile.user_id p = User.id (Session.user s)
       /\ UserProfile.is_active p = true
       /\ UserProfile.full_name p = Js.trim (fullName formData)
       /\ UserProfile.employee_number p = generated
       /\ UserProfile.position p = "Employee"
       /\ UserProfile.department_name p = Some (department formData)
       /\ UserProfile.department_id p = Some departmentId
       /\ UserProfile.phone_number p
          = or_undefined (Js.trim (phoneNumber formData))
       /\ UserProfile.company_name p
          = or_undefined (Js.trim (companyName formData)).
Proof.
  intros Hs Hu Hid Hn Hdep Hd Hnone Hdr Hdj Hir Hij Har Haj run. subst run.
  assert (Hid' : or_undefined (User.id (Session.user s))
                 = Some (User.id (Session.user s))).
  { unfold or_undefined.
    destruct (String.eqb_spec (User.id (Session.user s)) "") as [E|_];
      [now contradiction Hid | reflexivity]. }
  assert (Hrun : handleCompleteProfile net generated formData loading w
                 = (Returned false,
                    snd (emit (Alert "Success" "Profile completed successfully!")
                      (snd (completeEmployeeProfile net
                              (User.id (Session.user s))
                              (Js.trim (fullName formData)) generated
                              (department formData)
                              (or_undefined (Js.trim (phoneNumber formData)))
                              (or_undefined (Js.trim (companyName formData)))
                              (Some "Employee")
                              (Some (User.email (Session.user s))) w))))).
  { unfold handleCompleteProfile, useAuth, bind at 1. cbn.
    destruct (String.eqb_spec (Js.trim (fullName formData)) "") as [E|_];
      [now contradiction Hn|].
    destruct (String.eqb_spec (department formData) "") as [E|_];
      [now contradiction Hdep|].
    rewrite Hs, Hu. cbn. rewrite Hid'.
    unfold bind, try_catch, ret.
    rewrite (completeEmployeeProfile_fresh_run net _ _ _ _ _ _ _ _ w departmentId
               Hdr Hdj Hd Hir Hij Har Haj Hnone).
    reflexivity. }
  unfold shown. rewrite Hrun.
  rewrite (completeEmployeeProfile_fresh_run net _ _ _ _ _ _ _ _ w departmentId
             Hdr Hdj Hd Hir Hij Har Haj Hnone).
  cbn. rewrite skipn_length_app.
  refine (conj eq_refl (conj eq_refl _)).
  eexists. repeat split; cbn; apply or_null_or_undefined.
Qed.

Lemma handleCompleteProfile_stores_trimmed_witness :
  let form := {| fullName := "  Carol Danvers "; department := "Warehouse";
                 phoneNumber := "   "; companyName := " Acme " |} in
  let w := snd (login healthy "carol@example.com" "carol-secret" (boot Demo.site)) in
  exists p,
    user (store (snd (handleCompleteProfile healthy "EMP17000000001234" form false w)))
    = Some p
    /\ UserProfile.full_name p = "Carol Danvers"
    /\ UserProfile.phone_number p = None
    /\ UserProfile.company_name p = Some "Acme".
Proof.
  intros form w.
  destruct (handleCompleteProfile_stores_trimmed healthy "EMP17000000001234"
              form false w (grant Demo.carol) "dep-2")
    as (_ & _ & (p & A & _ & _ & _ & B & _ & _ & _ & _ & C & D));
    try reflexivity; try discriminate.
  exists p. exact (conj A (conj B (conj C D))).
Defined.
(** *** The forms *)

Lemma email_pattern_plain : Forall plain_item email_pattern.
Proof.
  repeat constructor;
    intros d; destruct d as [[] [] [] [] [] [] [] []]; reflexivity.
Qed.

Lemma match_here_space (pattern : list Item) (c : ascii) (s : string) :
  Forall plain_item pattern -> pattern <> [] -> Js.is_space c = true ->
  match_here pattern (String c s) = false.
Proof.
  intros Hp Hne Hc. destruct pattern as [|[l|] rest]; [now contradiction Hne| |].
  - inversion Hp as [|? ? Hl _]; subst. destruct Hl as [Hl _]. simpl.
    destruct (Ascii.eqb_spec c l) as [->|_]; [congruence | reflexivity].
  - simpl. now rewrite Hc.
Qed.

Lemma match_here_toLowerCase (pattern : list Item) :
  Forall plain_item pattern ->
  forall s, match_here pattern (Js.toLowerCase s) = match_here pattern s.
Proof.
  induction 1 as [|it rest Hit _ IH]; intros s; [reflexivity|].
  destruct it as [c|].
  - destruct s as [|d s]; simpl; [reflexivity|].
    destruct Hit as [_ Hc]. now rewrite Hc, IH.
  - induction s as [|d s IHs]; [reflexivity|].
    simpl in *. now rewrite is_space_lower, IH, IHs.
Qed.

Lemma test_toLowerCase (pattern : list Item) (s : string) :
  Forall plain_item pattern ->
  test pattern (Js.toLowerCase s) = test pattern s.
Proof.
  intros Hp. induction s as [|d s IH].
  - reflexivity.
  - change (Js.toLowerCase (String d s))
      with (String (Js.lower d) (Js.toLowerCase s)).
    cbn [test]. rewrite IH.
    change (String (Js.lower d) (Js.toLowerCase s))
      with (Js.toLowerCase (String d s)).
    now rewrite (match_here_toLowerCase pattern Hp).
Qed.

Lemma test_nil (s : string) : test [] s = true.
Proof. now destruct s. Qed.

Lemma test_trimStart (pattern : list Item) (s : string) :
  Forall plain_item pattern ->
  test pattern (Js.trimStart s) = test pattern s.
Proof.
  intros Hp. destruct pattern as [|it rest]; [now rewrite !test_nil|].
  induction s as [|d s IH]; [reflexivity|].
  simpl Js.trimStart. destruct (Js.is_space d) eqn:Hd; [|reflexivity].
  rewrite IH. cbn [test].
  rewrite (match_here_space (it :: rest) d s Hp) by (discriminate || exact Hd).
  reflexivity.
Qed.

(** How [trimEnd] unfolds on a non-empty string. *)
Lemma trimEnd_cons (c : ascii) (s : string) :
  Js.trimEnd (String c s) =
    match Js.trimEnd s with
    | EmptyString => if Js.is_space c then EmptyString else String c EmptyString
    | rest => String c rest
    end.
Proof. reflexivity. Qed.

Lemma match_here_trimEnd (pattern : list Item) :
  Forall plain_item pattern ->
  forall s, match_here pattern (Js.trimEnd s) = match_here pattern s.
Proof.
  induction 1 as [|it rest Hit Hrest IH]; intros s; [reflexivity|].
  destruct it as [c|].
  - destruct Hit as [Hc _].
    destruct s as [|d s]; [reflexivity|].
    rewrite trimEnd_cons. specialize (IH s).
    destruct (Js.trimEnd s) as [|e t] eqn:E.
    + destruct (Js.is_space d) eqn:Hd; cbn [match_here].
      * destruct (Ascii.eqb_spec d c) as [->|_]; [congruence | reflexivity].
      * now rewrite IH.
    + cbn [match_here]. now rewrite IH.
  - induction s as [|d s IHs]; [reflexivity|].
    rewrite trimEnd_cons. specialize (IH s).
    destruct (Js.trimEnd s) as [|e t] eqn:E.
    + destruct (Js.is_space d) eqn:Hd.
      * cbn. now rewrite Hd.
      * cbn in *. rewrite Hd. cbn. now rewrite <- IH, <- IHs.
    + cbn in *. now rewrite <- IH, <- IHs.
Qed.

Lemma test_trimEnd (pattern : list Item) (s : string) :
  Forall plain_item pattern ->
  test pattern (Js.trimEnd s) = test pattern s.
Proof.
  intros Hp. induction s as [|d s IH]; [reflexivity|].
  cbn [test]. rewrite <- (match_here_trimEnd pattern Hp (String d s)), <- IH.
  rewrite trimEnd_cons.
  destruct (Js.trimEnd s) as [|e t] eqn:E.
  - destruct (Js.is_space d); cbn [test].
    + now rewrite orb_false_r, orb_diag.
    + reflexivity.
  - reflexivity.
Qed.

Lemma test_normalized (pattern : list Item) (s : string) :
  Forall plain_item pattern ->
  test pattern (Js.trim (Js.toLowerCase s)) = test pattern s.
Proof.
  intros Hp. unfold Js.trim.
  now rewrite test_trimEnd, test_trimStart, test_toLowerCase.
Qed.

Lemma test_not_empty (s : string) : test email_pattern s = true -> s <> "".
Proof. intros H ->. discriminate H. Qed.

(** X27. The email check of the login screen accepts an identifier exactly
    when it accepts the form [login] sends to the backend: lower-casing and
    trimming never turn an accepted identifier into a rejected one, nor the
    reverse. *)
Theorem email_check_stable_under_normalization
    (authMode : AuthScreen.AuthMode) (formData : AuthScreen.FormData)
    (errors : AuthScreen.Errors) (value : string) :
  AuthScreen.email_error
    (AuthScreen.validateField authMode formData errors "email"
       (Js.trim (Js.toLowerCase value))) = ""
  <->
  AuthScreen.email_error
    (AuthScreen.validateField authMode formData errors "email" value) = "".
Proof.
  unfold AuthScreen.validateField. cbn.
  pose proof (test_normalized email_pattern value email_pattern_plain) as E.
  destruct (test email_pattern value) eqn:Hv.
  - pose proof (test_not_empty _ Hv) as Hne.
    pose proof (test_not_empty _ E) as Hne'.
    rewrite E.
    destruct (String.eqb_spec value ""); [now contradiction Hne|].
    destruct (String.eqb_spec (Js.trim (Js.toLowerCase value)) "");
      [now contradiction Hne'|].
    split; reflexivity.
  - rewrite E.
    destruct (String.eqb_spec value "");
      destruct (String.eqb_spec (Js.trim (Js.toLowerCase value)) "");
      cbn; split; discriminate.
Qed.

Lemma email_check_stable_under_normalization_witness :
  AuthScreen.email_error
    (AuthScreen.validateField AuthScreen.LoginMode
       {| AuthScreen.email := ""; AuthScreen.password := "";
          AuthScreen.confirmPassword := "" |}
       AuthScreen.no_errors "email" "  Alice@Example.COM ") = "".
Proof.
  apply (email_check_stable_under_normalization AuthScreen.LoginMode).
  reflexivity.
Defined.

(** The check is not anchored: a match survives text added around it. *)
Lemma match_here_app (pattern : list Item) :
  forall s q, match_here pattern s = true -> match_here pattern (s ++ q) = true.
Proof.
  induction pattern as [|it rest IH]; intros s q; [reflexivity|].
  destruct it as [c|].
  - destruct s as [|d s]; simpl; [discriminate|].
    rewrite !andb_true_iff. intros [-> H]. split; [reflexivity | now apply IH].
  - induction s as [|d s IHs]; [discriminate|].
    simpl in *. rewrite !andb_true_iff, !orb_true_iff.
    intros [-> [H|H]]; (split; [reflexivity|]); [left; now apply IH | right; now apply IHs].
Qed.

Lemma test_app (pattern : list Item) (p s q : string) :
  test pattern s = true -> test pattern (p ++ s ++ q) = true.
Proof.
  intros H.
  assert (Hq : test pattern (s ++ q) = true).
  { clear p. induction s as [|d s IH].
    - destruct pattern as [|it rest]; [apply test_nil|].
      destruct it; discriminate H.
    - cbn [test] in H. apply orb_true_iff in H.
      change ((String d s ++ q)%string) with (String d (s ++ q)).
      cbn [test]. apply orb_true_iff. destruct H as [H|H].
      + left. now apply (match_here_app pattern (String d s) q).
      + right. now apply IH. }
  induction p as [|c p IH]; [exact Hq|].
  change ((String c p ++ s ++ q)%string) with (String c (p ++ s ++ q)).
  cbn [test]. now rewrite IH, orb_true_r.
Qed.

(** X28. The email check looks for an address somewhere in the text: whatever
    is accepted stays accepted with any text put before or after it, spaces
    and further words included. *)
Theorem email_check_not_anchored
    (authMode : AuthScreen.AuthMode) (formData : AuthScreen.FormData)
    (errors : AuthScreen.Errors) (value before after : string) :
  AuthScreen.email_error
    (AuthScreen.validateField authMode formData errors "email" value) = "" ->
  AuthScreen.email_error
    (AuthScreen.validateField authMode formData errors "email"
       (before ++ value ++ after)) = "".
Proof.
  unfold AuthScreen.validateField. cbn.
  destruct (String.eqb_spec value ""); [discriminate|].
  destruct (test email_pattern value) eqn:Hv; [|discriminate].
  intros _. rewrite (test_app email_pattern before value after Hv).
  pose proof (test_not_empty _ (test_app email_pattern before value after Hv)) as Hne.
  now destruct (String.eqb_spec (before ++ value ++ after) "").
Qed.

Lemma email_check_not_anchored_witness :
  AuthScreen.email_error
    (AuthScreen.validateField AuthScreen.LoginMode
       {| AuthScreen.email := ""; AuthScreen.password := "";
          AuthScreen.confirmPassword := "" |}
       AuthScreen.no_errors "email" "write to a@b.c please") = "".
Proof.
  apply (email_check_not_anchored AuthScreen.LoginMode _ _
           "a@b.c" "write to " " please").
  reflexivity.
Defined.

(** A password the sign-up form accepts has at least eight characters. *)
Lemma signup_password_len
    (formData : AuthScreen.FormData) (errors : AuthScreen.Errors)
    (value : string) :
  AuthScreen.password_error
    (AuthScreen.validateField AuthScreen.SignupMode formData errors
       "password" value) = "" ->
  8 <= String.length value.
Proof.
  unfold AuthScreen.validateField.
  remember (String.length value <? 8) as short eqn:Hs.
  cbn.
  destruct (String.eqb_spec value ""); cbn; [discriminate|].
  destruct short; symmetry in Hs; [discriminate|].
  intros _. now apply Nat.ltb_ge in Hs.
Qed.

(** X29. The screens agree on what a password may be: a password accepted by
    the sign-up form, or by the reset-password form, is accepted by the
    login form, whatever the rest of the forms hold. *)
Theorem accepted_passwords_can_log_in
    (formData formData' : AuthScreen.FormData)
    (errors errors' : AuthScreen.Errors) (value confirm : string) :
  (AuthScreen.password_error
     (AuthScreen.validateField AuthScreen.SignupMode formData errors
        "password" value) = ""
   \/ fst (ResetPassword.validateForm value confirm) = true) ->
  AuthScreen.password_error
    (AuthScreen.validateField AuthScreen.LoginMode formData' errors'
       "password" value) = "".
Proof.
  intros H.
  assert (Hlen : 6 <= String.length value).
  { destruct H as [H|H].
    - apply signup_password_len in H. lia.
    - unfold ResetPassword.validateForm in H.
      remember (String.length value <? 6) as short eqn:Hs.
      cbn in H.
      destruct (String.eqb_spec value ""); [discriminate H|].
      destruct short; symmetry in Hs; [discriminate H|].
      now apply Nat.ltb_ge in Hs. }
  unfold AuthScreen.validateField.
  remember (String.length value <? 6) as short eqn:Hs.
  cbn.
  destruct (String.eqb_spec value "") as [->|_]; [cbn in Hlen; lia|].
  destruct short; symmetry in Hs; [|reflexivity].
  apply Nat.ltb_lt in Hs. lia.
Qed.

Lemma accepted_passwords_can_log_in_witness :
  AuthScreen.password_error
    (AuthScreen.validateField AuthScreen.LoginMode
       {| AuthScreen.email := ""; AuthScreen.password := "";
          AuthScreen.confirmPassword := "" |}
       AuthScreen.no_errors "password" "secret") = "".
Proof.
  apply (accepted_passwords_can_log_in
           {| AuthScreen.email := ""; AuthScreen.password := "";
              AuthScreen.confirmPassword := "" |} _
           AuthScreen.no_errors _ "secret" "secret").
  right. reflexivity.
Defined.
